(** * pyuvm sequences: items, response queue, exchange port/export,
      sequencer and sequence, and the register item's status setter.

    Shallow embedding of [pyuvm/s14_15_python_sequences.py] and of
    [pyuvm/s23_pyuvm_reg_item.py].

    Python objects that are shared by reference (sequence items) live in a
    heap keyed by their identity; queues and slots hold references.  A
    coroutine is modelled by the code it runs between two suspension points:
    a call yields an [outcome] that says whether it returned, raised, or
    suspended at an [await], together with the state reached and the event
    pulses it emitted on the way. *)

From stdpp Require Import base option list gmap strings.
From Stdlib Require Import ZArith Lia.

(** ** Python values, exceptions, events *)

(** Object identity ([id(obj)]) of a sequence item. *)
Abbreviation loc := nat (only parsing).

(** Exceptions raised by the modelled code. *)
Inductive exn : Type :=
| UVMSequenceError
| UVMFatalError
| AssertionError
| AttributeError
| ValueError.

(** The values an untyped Python argument can take, as far as the type tests
    of the modelled code tell them apart. *)
Inductive pyval : Type :=
| PyNone
| PyInt (z : Z)
| PyStr (s : string)
| PyItem (l : loc)          (* an instance of uvm_sequence_item (or subclass) *)
| PySequencer (s : nat)     (* an instance of uvm_sequencer (or subclass) *)
| PyObj (cls : string).     (* an instance of any other class *)

#[global] Instance exn_eq_dec : EqDecision exn.
Proof. solve_decision. Defined.

#[global] Instance pyval_eq_dec : EqDecision pyval.
Proof. solve_decision. Defined.

(** The three [CocotbEvent]s every sequence item owns. *)
Inductive signal : Type := start_condition | finish_condition | item_ready.

(** [ev.set(); ev.clear()] with no suspension in between: the event wakes the
    tasks waiting at that instant and is unset again afterwards.  The model
    records such a pair as one emitted pulse. *)
Inductive pulse : Type :=
| ItemPulse (l : loc) (sg : signal)   (* an event of item [l] *)
| PutEvent.                           (* ResponseQueue.put_event *)

#[global] Instance signal_eq_dec : EqDecision signal.
Proof. solve_decision. Defined.

#[global] Instance pulse_eq_dec : EqDecision pulse.
Proof. solve_decision. Defined.

(** The queues of the exchange. *)
Inductive queue_name : Type := SeqQ | ReqQ | RspQ.

(** What a suspended coroutine is waiting for. *)
Inductive wait_on : Type :=
| OnGet (q : queue_name)     (* [await q.get()] on an empty queue *)
| OnPulse (p : pulse).       (* [await ev.wait()] *)

(** Result of running a coroutine (or plain method) from a resumption point
    up to its next suspension, return or raise.  [s] is the state reached and
    [ps] the pulses emitted, oldest first. *)
Inductive outcome (S A : Type) : Type :=
| Done (a : A) (s : S) (ps : list pulse)
| Raised (e : exn) (s : S) (ps : list pulse)
| Blocked (on : wait_on) (s : S) (ps : list pulse).

Arguments Done {S A} a s ps.
Arguments Raised {S A} e s ps.
Arguments Blocked {S A} on s ps.

(** Pulses emitted before the call that produced [o]. *)
Definition emit {S A} (ps0 : list pulse) (o : outcome S A) : outcome S A :=
  match o with
  | Done a s ps => Done a s (ps0 ++ ps)
  | Raised e s ps => Raised e s (ps0 ++ ps)
  | Blocked on s ps => Blocked on s (ps0 ++ ps)
  end.

(** The state a call leaves behind, however it ended. *)
Definition outcome_state {S A} (o : outcome S A) : S :=
  match o with
  | Done _ s _ | Raised _ s _ | Blocked _ s _ => s
  end.

(** A call made on a component [S] of a larger state [T]. *)
Definition map_state {S T A} (f : S -> T) (o : outcome S A) : outcome T A :=
  match o with
  | Done a s ps => Done a (f s) ps
  | Raised e s ps => Raised e (f s) ps
  | Blocked on s ps => Blocked on (f s) ps
  end.

(** [a = await m; k a]: the rest [k] runs once [m] has returned; a raise
    propagates, and a suspension inside [m] is where the model stops. *)
Definition bind {S A B} (m : outcome S A) (k : A -> S -> outcome S B)
  : outcome S B :=
  match m with
  | Done a s ps => emit ps (k a s)
  | Raised e s ps => Raised e s ps
  | Blocked on s ps => Blocked on s ps
  end.

(** Modelled from the spec: [UVMQueue] (a [cocotb.queue.Queue]) is not part of
    the sources at hand.  The spec describes it as an insertion-ordered FIFO
    whose [put] suspends only when bounded and full and whose [get] suspends
    while empty.  Every queue built in this file is unbounded ([UVMQueue()],
    [UVMQueue(0)], [ResponseQueue()]), so a queue is the list of its
    contents, oldest first, and [put] never suspends. *)
Module UVMQueue.
Definition t : Type := list loc.

Definition put_nowait (q : t) (item : loc) : t := q ++ [item].

(** [get_nowait] on a non-empty queue; [None] stands for "empty, the
    caller suspends". *)
Definition get_nowait (q : t) : option (loc * t) :=
  match q with
  | [] => None
  | x :: q' => Some (x, q')
  end.
End UVMQueue.

(** ** uvm_sequence_item (lines 150-172) *)

Module uvm_sequence_item.
(** [transaction_id] is inherited from [uvm_transaction]; the three events
    carry no state between pulses and appear as [pulse]s only. *)
Record t : Type := mk {
  transaction_id : Z;
  parent_sequence_id : option Z;
  response_id : option (option Z * Z)
}.

(** [__init__]: both links start out as [None]. *)
Definition init (txn : Z) : t := mk txn None None.

(** Modelled from the spec: [get_transaction_id] belongs to the base class
    [uvm_transaction], which is not among the sources; the spec calls its
    result the item's [id]. *)
Definition get_transaction_id (it : t) : Z := transaction_id it.

Definition with_response_id (it : t) (r : option (option Z * Z)) : t :=
  mk (transaction_id it) (parent_sequence_id it) r.

Definition with_parent_sequence_id (it : t) (p : option Z) : t :=
  mk (transaction_id it) p (response_id it).

(** [self.set_context(item)], line 172.  [None] when a reference does not
    denote an object (no such call exists in Python). *)
Definition set_context (self item : loc) (h : gmap loc t)
  : option (gmap loc t) :=
  it ← h !! item;
  me ← h !! self;
  Some (<[self :=
            with_response_id me
              (Some (parent_sequence_id it, get_transaction_id it))]> h).
End uvm_sequence_item.

#[global] Instance item_eq_dec : EqDecision uvm_sequence_item.t.
Proof. solve_decision. Defined.

(** The heap of sequence items. *)
Abbreviation heap := (gmap loc uvm_sequence_item.t) (only parsing).

(** ** ResponseQueue (lines 96-147) *)

Module ResponseQueue.
(** [self._queue], oldest first. *)
Definition t : Type := list loc.

(** [put_nowait], lines 106-117: append, then pulse [put_event]. *)
Definition put_nowait (q : t) (item : loc) : t * list pulse :=
  (UVMQueue.put_nowait q item, [PutEvent]).

(** [xx.transaction_id == txn_id] for a queued [xx]. *)
Definition has_txn_id (h : heap) (txn_id : Z) (xx : loc) : Prop :=
  uvm_sequence_item.transaction_id <$> h !! xx = Some txn_id.

#[global] Instance has_txn_id_dec h txn_id xx :
  Decision (has_txn_id h txn_id xx).
Proof. unfold has_txn_id. apply _. Defined.

(** [deque.index(x)]: position of the first occurrence. *)
Fixpoint index (x : loc) (q : list loc) : option nat :=
  match q with
  | [] => None
  | y :: q' => if decide (y = x) then Some 0 else S <$> index x q'
  end.

(** [deque.remove(x)]: drop the first occurrence.  Items compare by
    identity (the classes of this file define no [__eq__]). *)
Fixpoint remove (x : loc) (q : list loc) : list loc :=
  match q with
  | [] => []
  | y :: q' => if decide (y = x) then q' else y :: remove x q'
  end.

(** [get_response], lines 119-144, from its entry (or from a wake-up, which
    re-enters the same loop body) to its next suspension. *)
Definition get_response (h : heap) (q : t) (txn_id : option Z)
  : outcome t loc :=
  match txn_id with
  | None =>
      match UVMQueue.get_nowait q with
      | None => Blocked (OnGet RspQ) q []
      | Some (x, q') => Done x q' []
      end
  | Some txn_id =>
      let item_list := q in
      let txn_list := filter (has_txn_id h txn_id) item_list in
      match txn_list with
      | [] => Blocked (OnPulse PutEvent) q []
      | x :: _ =>
          if decide (length txn_list = 1) then
            match index x q with
            | None => Raised ValueError q []
            | Some _ => Done x (remove x q) []
            end
          else Raised AssertionError q []
      end
  end.

(** A caller that awaits [get_response()] [n] times in a row, as far as the
    calls return without suspending: the items received, oldest first, and
    the queue left. *)
Fixpoint get_responses (h : heap) (n : nat) (q : t) : list loc * t :=
  match n with
  | 0 => ([], q)
  | S n =>
      match get_response h q None with
      | Done x q' _ =>
          let '(xs, q'') := get_responses h n q' in (x :: xs, q'')
      | Raised _ _ _ | Blocked _ _ _ => ([], q)
      end
  end.

(** [put_nowait] of several items, one after the other. *)
Definition put_all (q : t) (xs : list loc) : t :=
  foldl (fun q x => (put_nowait q x).1) q xs.
End ResponseQueue.

(** ** uvm_seq_item_export (lines 175-251) *)

Module uvm_seq_item_export.
Record t : Type := mk {
  req_q : UVMQueue.t;
  rsp_q : ResponseQueue.t;
  current_item : option loc
}.

(** [__init__], lines 181-185. *)
Definition init : t := mk [] [] None.

(** [put_req], line 194: [req_q] is unbounded, the [put] does not suspend. *)
Definition put_req (self : t) (item : loc) : outcome t unit :=
  Done tt
    (mk (UVMQueue.put_nowait (req_q self) item) (rsp_q self)
        (current_item self)) [].

(** [put_response], line 204. *)
Definition put_response (self : t) (item : loc) : outcome t unit :=
  let '(q, ps) := ResponseQueue.put_nowait (rsp_q self) item in
  Done tt (mk (req_q self) q (current_item self)) ps.

(** [get_next_item] from [await self.req_q.get()] (line 217) on: either the
    queue is empty and the call stays suspended there, or the head becomes
    [current_item], its [start_condition] is pulsed (lines 218-219) and the
    call suspends on its [item_ready] (line 220). *)
Definition get_next_item_get (self : t) : outcome t (option loc) :=
  match UVMQueue.get_nowait (req_q self) with
  | None => Blocked (OnGet ReqQ) self []
  | Some (x, q') =>
      Blocked (OnPulse (ItemPulse x item_ready))
        (mk q' (rsp_q self) (Some x))
        [ItemPulse x start_condition]
  end.

(** [get_next_item] from its entry, lines 214-220. *)
Definition get_next_item (self : t) : outcome t (option loc) :=
  match current_item self with
  | Some _ => Raised UVMSequenceError self []
  | None => get_next_item_get self
  end.

(** [get_next_item] once [item_ready] has fired: [return self.current_item]
    (line 221). *)
Definition get_next_item_return (self : t) : outcome t (option loc) :=
  Done (current_item self) self [].

(** [item_done], lines 230-237. *)
Definition item_done (self : t) (rsp : option loc) : outcome t unit :=
  match current_item self with
  | None => Raised UVMSequenceError self []
  | Some cur =>
      let self1 := mk (req_q self) (rsp_q self) None in
      emit [ItemPulse cur finish_condition]
        match rsp with
        | None => Done tt self1 []
        | Some r => put_response self1 r
        end
  end.

(** [get_response], lines 250-251. *)
Definition get_response (h : heap) (self : t) (transaction_id : option Z)
  : outcome t loc :=
  map_state (fun q => mk (req_q self) q (current_item self))
    (ResponseQueue.get_response h (rsp_q self) transaction_id).
End uvm_seq_item_export.

(** ** uvm_seq_item_port (lines 254-327) *)

Module uvm_seq_item_port.
(** [self.export] is [None] until the port is connected. *)
Record t : Type := mk { export : option uvm_seq_item_export.t }.

(** [issubclass(type(v), uvm_sequence_item)]. *)
Definition is_uvm_sequence_item (v : pyval) : bool :=
  match v with
  | PyItem _ => true
  | _ => false
  end.

(** The item reference a checked argument carries over to the export. *)
Definition as_item (v : pyval) : option loc :=
  match v with
  | PyItem l => Some l
  | _ => None
  end.

(** A method call on [self.export]; on an unconnected port the attribute
    access on [None] raises [absent]. *)
Definition on_export {A} (absent : exn) (self : t)
    (f : uvm_seq_item_export.t -> outcome uvm_seq_item_export.t A)
  : outcome t A :=
  match export self with
  | None => Raised absent self []
  | Some e => map_state (fun e' => mk (Some e')) (f e)
  end.

(** [put_req], line 266. *)
Definition put_req (self : t) (item : loc) : outcome t unit :=
  on_export AttributeError self
    (fun e => uvm_seq_item_export.put_req e item).

(** [put_response], lines 277-282. *)
Definition put_response (self : t) (item : pyval) : outcome t unit :=
  match item with
  | PyItem l =>
      on_export AttributeError self
        (fun e => uvm_seq_item_export.put_response e l)
  | _ => Raised UVMFatalError self []
  end.

(** [get_next_item], lines 292-296: the [AttributeError] of an unconnected
    port is turned into the failed assertion of line 295. *)
Definition get_next_item (self : t) : outcome t (option loc) :=
  on_export AssertionError self uvm_seq_item_export.get_next_item.

(** [item_done], lines 307-313. *)
Definition item_done (self : t) (rsp : pyval) : outcome t unit :=
  let checked :=
    if decide (rsp = PyNone) then true else is_uvm_sequence_item rsp in
  if checked then
    on_export AttributeError self
      (fun e => uvm_seq_item_export.item_done e (as_item rsp))
  else Raised UVMFatalError self [].

(** [get_response], lines 326-327. *)
Definition get_response (h : heap) (self : t) (transaction_id : option Z)
  : outcome t loc :=
  on_export AttributeError self
    (fun e => uvm_seq_item_export.get_response h e transaction_id).
End uvm_seq_item_port.

(** ** uvm_sequencer (lines 334-371) *)

Module uvm_sequencer.
Record t : Type := mk {
  seq_item_export : uvm_seq_item_export.t;
  seq_q : UVMQueue.t
}.

(** [__init__], lines 343-346. *)
Definition init : t := mk uvm_seq_item_export.init [].

Definition on_export {A} (self : t)
    (f : uvm_seq_item_export.t -> outcome uvm_seq_item_export.t A)
  : outcome t A :=
  map_state (fun e' => mk e' (seq_q self)) (f (seq_item_export self)).

(** [run_phase], line 350: one [await self.seq_q.get()]. *)
Definition run_phase_get (self : t) : outcome t loc :=
  match UVMQueue.get_nowait (seq_q self) with
  | None => Blocked (OnGet SeqQ) self []
  | Some (x, q') => Done x (mk (seq_item_export self) q') []
  end.

(** [put_req], line 363. *)
Definition put_req (self : t) (req : loc) : outcome t unit :=
  on_export self (fun e => uvm_seq_item_export.put_req e req).

(** [run_phase], line 351: forward [next_item] to the export. *)
Definition run_phase_put (self : t) (next_item : loc) : outcome t unit :=
  on_export self (fun e => uvm_seq_item_export.put_req e next_item).

(** [start_item], lines 354-355: enqueue, then wait to be selected. *)
Definition start_item (self : t) (item : loc) : outcome t unit :=
  Blocked (OnPulse (ItemPulse item start_condition))
    (mk (seq_item_export self) (UVMQueue.put_nowait (seq_q self) item)) [].

(** [finish_item], lines 358-360: release the item, then wait for the
    driver to finish it. *)
Definition finish_item (self : t) (item : loc) : outcome t unit :=
  Blocked (OnPulse (ItemPulse item finish_condition)) self
    [ItemPulse item item_ready].

(** [get_response], lines 366-367. *)
Definition get_response (h : heap) (self : t) (txn_id : option Z)
  : outcome t loc :=
  on_export self (fun e => uvm_seq_item_export.get_response h e txn_id).

(** [get_next_item], lines 370-371. *)
Definition get_next_item (self : t) : outcome t (option loc) :=
  on_export self uvm_seq_item_export.get_next_item.
End uvm_sequencer.

(** ** uvm_sequence (lines 374-461) *)

(** What a sequence can reach: the items and the sequencers, by identity. *)
Record world : Type := mk_world {
  items : gmap loc uvm_sequence_item.t;
  sequencers : gmap nat uvm_sequencer.t
}.

Module uvm_sequence.
Record t : Type := mk {
  sequencer : option nat;        (* [None], or the sequencer bound by start *)
  running_item : option loc;
  sequence_id : Z
}.

(** [__init__], lines 383-387; [id_self] is [id(self)]. *)
Definition init (id_self : Z) : t := mk None None id_self.

(** [isinstance(seqr, uvm_sequencer)]. *)
Definition isinstance_uvm_sequencer (seqr : pyval) : bool :=
  match seqr with
  | PySequencer _ => true
  | _ => false
  end.

(** The reference stored by [self.sequencer = seqr] once the check of
    lines 421-423 has passed. *)
Definition as_sequencer (seqr : pyval) : option nat :=
  match seqr with
  | PySequencer s => Some s
  | _ => None
  end.

(** A method call on the sequencer [s]; a reference that denotes no
    sequencer cannot occur in Python and is answered as a missing
    attribute. *)
Definition on_sequencer {A} (s : nat) (w : world)
    (f : uvm_sequencer.t -> outcome uvm_sequencer.t A) : outcome world A :=
  match sequencers w !! s with
  | None => Raised AttributeError w []
  | Some sq =>
      map_state (fun sq' => mk_world (items w) (<[s := sq']> (sequencers w)))
        (f sq)
  end.

Section hooks.
(** The user's [pre_body], [body] and [post_body]: whatever they do to
    the sequence and to the rest [W] of the program when awaited. *)
Context {W : Type}.
Variables pre_body body post_body : t * W -> outcome (t * W) unit.

(** [start], lines 421-429. *)
Definition start (self : t) (seqr : pyval) (call_pre_post : bool) (w : W)
  : outcome (t * W) unit :=
  let checked :=
    if decide (seqr = PyNone) then true
    else isinstance_uvm_sequencer seqr in
  if checked then
    let self := mk (as_sequencer seqr) (running_item self)
                   (sequence_id self) in
    bind (if call_pre_post then pre_body (self, w)
          else Done tt (self, w) []) (fun _ st =>
    bind (body st) (fun _ st =>
    if call_pre_post then post_body st else Done tt st []))
  else Raised AssertionError (self, w) [].
End hooks.

(** [start_item], lines 438-444, up to the suspension inside the
    sequencer's [start_item]. *)
Definition start_item (self : t) (item : loc) (w : world)
  : outcome (t * world) unit :=
  match sequencer self with
  | None => Raised UVMSequenceError (self, w) []
  | Some s =>
      let h :=
        alter (fun it =>
                 uvm_sequence_item.with_parent_sequence_id it
                   (Some (sequence_id self))) item (items w) in
      let self := mk (sequencer self) (Some item) (sequence_id self) in
      map_state (fun w' => (self, w'))
        (on_sequencer s (mk_world h (sequencers w))
           (fun sq => uvm_sequencer.start_item sq item))
  end.

(** [finish_item], lines 447-451. *)
Definition finish_item (self : t) (item : loc) (w : world)
  : outcome (t * world) unit :=
  match sequencer self with
  | None => Raised UVMSequenceError (self, w) []
  | Some s =>
      map_state (fun w' => (self, w'))
        (on_sequencer s w (fun sq => uvm_sequencer.finish_item sq item))
  end.

(** [self.running_item.transaction_id], line 459. *)
Definition running_transaction_id (self : t) (w : world) : option Z :=
  l ← running_item self;
  uvm_sequence_item.transaction_id <$> items w !! l.

(** [get_response], lines 454-461. *)
Definition get_response (self : t) (transaction_id : option Z) (w : world)
  : outcome world loc :=
  match sequencer self with
  | None => Raised UVMSequenceError w []
  | Some s =>
      let tran_id :=
        match transaction_id with
        | Some i => Some i
        | None => running_transaction_id self w
        end in
      match tran_id with
      | None => Raised AttributeError w []  (* running_item is None *)
      | Some i =>
          on_sequencer s w
            (fun sq => uvm_sequencer.get_response (items w) sq (Some i))
      end
  end.

End uvm_sequence.

(** ** Producers, forwarder and driver around one sequencer

    The tasks of a test bench run cooperatively: one task runs at a time,
    from one suspension point to the next.  A [step] is one such run; the
    scheduler's choices are the [action]s.  The sequencer's state is the only
    shared state; what each task does to it is computed by the methods
    above. *)

Module Exchange.
(** The forwarding task of [uvm_sequencer.run_phase]: before line 350, or
    between lines 350 and 351 holding [next_item].  Other tasks may run
    while it holds an item; the unbounded request queue never forces that,
    so the schedules of the model include those of the program. *)
Inductive forwarder_pc : Type :=
| FGet
| FPut (next_item : loc).

(** The driver, in its own code or inside [get_next_item]. *)
Inductive consumer_pc : Type :=
| CRun                       (* in driver code *)
| CWaitReq                   (* suspended at line 217, queue empty *)
| CWaitReady (ev : pulse)    (* suspended at line 220 on [ev] *)
| CReturn.                   (* woken, line 221 still to run *)

Record t : Type := mk {
  seqr : uvm_sequencer.t;
  producers : gmap nat pulse;   (* p ↦ ev: producer p is suspended on ev;
                                   absent: p runs its own code *)
  forwarder : forwarder_pc;
  consumer : consumer_pc;
  started : list loc;           (* history: arguments of the start_item
                                   calls, in call order *)
  fetched : list (option loc)   (* history: results of get_next_item, in
                                   return order *)
}.

Definition init : t := mk uvm_sequencer.init ∅ FGet CRun [] [].

Inductive action : Type :=
| StartItem (p : nat) (item : loc)    (* producer p calls start_item(item) *)
| FinishItem (p : nat) (item : loc)   (* producer p calls finish_item(item) *)
| Forward                             (* the run_phase task runs *)
| GetNextItem                         (* the driver calls get_next_item, or
                                         goes on inside it *)
| ItemDone (rsp : option loc).        (* the driver calls item_done(rsp) *)

(** Edge-triggered wake-up: the emitted pulses [ps] resume exactly the
    tasks suspended on one of them at that instant. *)
Definition wake_producers (ps : list pulse) (m : gmap nat pulse)
  : gmap nat pulse :=
  filter (fun kv => kv.2 ∉ ps) m.

Definition wake_consumer (ps : list pulse) (c : consumer_pc) : consumer_pc :=
  match c with
  | CWaitReady ev => if decide (ev ∈ ps) then CReturn else c
  | _ => c
  end.

(** State after a task has changed the sequencer to [sq] and emitted
    [ps]. *)
Definition deliver (sq : uvm_sequencer.t) (ps : list pulse) (st : t) : t :=
  mk sq (wake_producers ps (producers st)) (forwarder st)
     (wake_consumer ps (consumer st)) (started st) (fetched st).

Definition set_producer (p : nat) (ev : option pulse) (st : t) : t :=
  mk (seqr st)
     (match ev with
      | Some ev => <[p := ev]> (producers st)
      | None => delete p (producers st)
      end)
     (forwarder st) (consumer st) (started st) (fetched st).

Definition set_forwarder (f : forwarder_pc) (st : t) : t :=
  mk (seqr st) (producers st) f (consumer st) (started st) (fetched st).

Definition set_consumer (c : consumer_pc) (st : t) : t :=
  mk (seqr st) (producers st) (forwarder st) c (started st) (fetched st).

Definition log_started (item : loc) (st : t) : t :=
  mk (seqr st) (producers st) (forwarder st) (consumer st)
     (started st ++ [item]) (fetched st).

Definition log_fetched (v : option loc) (st : t) : t :=
  mk (seqr st) (producers st) (forwarder st) (consumer st)
     (started st) (fetched st ++ [v]).

(** Where a producer is after a sequencer call with outcome [o]. *)
Definition producer_after (p : nat) (o : outcome uvm_sequencer.t unit)
    (st : t) : t :=
  match o with
  | Blocked (OnPulse ev) sq ps => set_producer p (Some ev) (deliver sq ps st)
  | Blocked (OnGet _) sq ps => deliver sq ps st
  | Done _ sq ps => deliver sq ps st
  | Raised _ sq ps => deliver sq ps st
  end.

(** Where the driver is after running [get_next_item] code with outcome
    [o]. *)
Definition consumer_after (o : outcome uvm_sequencer.t (option loc))
    (st : t) : t :=
  match o with
  | Done v sq ps => log_fetched v (set_consumer CRun (deliver sq ps st))
  | Raised _ sq ps => set_consumer CRun (deliver sq ps st)
  | Blocked (OnGet _) sq ps => set_consumer CWaitReq (deliver sq ps st)
  | Blocked (OnPulse ev) sq ps =>
      set_consumer (CWaitReady ev) (deliver sq ps st)
  end.

(** One scheduling step.  An action of a task that is suspended (or, for
    the driver, a call it cannot make where it stands) leaves the state as
    it is. *)
Definition step (st : t) (a : action) : t :=
  match a with
  | StartItem p item =>
      match producers st !! p with
      | Some _ => st
      | None =>
          producer_after p (uvm_sequencer.start_item (seqr st) item)
            (log_started item st)
      end
  | FinishItem p item =>
      match producers st !! p with
      | Some _ => st
      | None =>
          producer_after p (uvm_sequencer.finish_item (seqr st) item) st
      end
  | Forward =>
      match forwarder st with
      | FGet =>
          match uvm_sequencer.run_phase_get (seqr st) with
          | Done x sq ps => set_forwarder (FPut x) (deliver sq ps st)
          | Raised _ sq ps | Blocked _ sq ps => deliver sq ps st
          end
      | FPut next_item =>
          match uvm_sequencer.run_phase_put (seqr st) next_item with
          | Done _ sq ps => set_forwarder FGet (deliver sq ps st)
          | Raised _ sq ps | Blocked _ sq ps => deliver sq ps st
          end
      end
  | GetNextItem =>
      match consumer st with
      | CRun => consumer_after (uvm_sequencer.get_next_item (seqr st)) st
      | CWaitReq =>
          consumer_after
            (uvm_sequencer.on_export (seqr st)
               uvm_seq_item_export.get_next_item_get) st
      | CWaitReady _ => st
      | CReturn =>
          consumer_after
            (uvm_sequencer.on_export (seqr st)
               uvm_seq_item_export.get_next_item_return) st
      end
  | ItemDone rsp =>
      match consumer st with
      | CRun =>
          match uvm_sequencer.on_export (seqr st)
                  (fun e => uvm_seq_item_export.item_done e rsp) with
          | Done _ sq ps | Raised _ sq ps | Blocked _ sq ps =>
              deliver sq ps st
          end
      | _ => st
      end
  end.

(** A schedule, run from [st]. *)
Definition run (st : t) (acts : list action) : t := foldl step st acts.

(** The items on their way from [start_item] to the driver, the one
    nearest to the driver first. *)
Definition in_hand (st : t) : list loc :=
  match consumer st with
  | CWaitReady _ | CReturn =>
      option_list (uvm_seq_item_export.current_item
                     (uvm_sequencer.seq_item_export (seqr st)))
  | CRun | CWaitReq => []
  end.

Definition held (st : t) : list loc :=
  match forwarder st with
  | FGet => []
  | FPut x => [x]
  end.

Definition in_flight (st : t) : list loc :=
  in_hand st
  ++ uvm_seq_item_export.req_q (uvm_sequencer.seq_item_export (seqr st))
  ++ held st
  ++ uvm_sequencer.seq_q (seqr st).

(** A schedule for producers [k], [k+1], ... that each send one item of
    [ls]: what happens to one item after its [start_item], from the
    forwarder's two moves to the driver's [item_done]. *)
Definition serve (p : nat) (item : loc) : list action :=
  [Forward; Forward; GetNextItem; FinishItem p item; GetNextItem;
   ItemDone None].

Fixpoint start_all (k : nat) (ls : list loc) : list action :=
  match ls with
  | [] => []
  | l :: ls => StartItem k l :: start_all (S k) ls
  end.

Fixpoint serve_all (k : nat) (ls : list loc) : list action :=
  match ls with
  | [] => []
  | l :: ls => serve k l ++ serve_all (S k) ls
  end.

(** All producers call [start_item] first, in the order of [ls]; then the
    items are served one after the other. *)
Definition deliver_all (ls : list loc) : list action :=
  start_all 0 ls ++ serve_all 0 ls.

(** Producer [k + i] is ready to release the [i]-th item of [ls]: it
    waits to be selected, or has been selected already. *)
Definition ready (m : gmap nat pulse) (k : nat) (ls : list loc) : Prop :=
  forall i l, ls !! i = Some l ->
    m !! (k + i) = None \/ m !! (k + i) = Some (ItemPulse l start_condition).

(** The [item_done] calls of a schedule. *)
Definition is_item_done (a : action) : bool :=
  match a with
  | ItemDone _ => true
  | _ => false
  end.

Definition item_done_calls (acts : list action) : nat :=
  length (List.filter is_item_done acts).

(** The slot of the export. *)
Definition slot (st : t) : option loc :=
  uvm_seq_item_export.current_item (uvm_sequencer.seq_item_export (seqr st)).

(** The driver's calls are paired: with [d] calls of [item_done] made so
    far, it has been handed at most [d] items, plus the one it holds. *)
Definition paired (d : nat) (st : t) : Prop :=
  match consumer st with
  | CRun => length (fetched st) <= d + length (option_list (slot st))
  | CWaitReq => slot st = None /\ length (fetched st) <= d
  | CWaitReady _ | CReturn => is_Some (slot st) /\ length (fetched st) <= d
  end.

(** The driver is inside [get_next_item] with an item already popped. *)
Definition popped (c : consumer_pc) : bool :=
  match c with
  | CWaitReady _ | CReturn => true
  | CRun | CWaitReq => false
  end.

(** What every schedule maintains: a driver that has popped an item still
    finds it in the slot, every value returned by [get_next_item] is an
    item, and the returned items followed by the items in flight are the
    started ones in call order. *)
Definition inv (st : t) : Prop :=
  (popped (consumer st) = true ->
   is_Some (uvm_seq_item_export.current_item
              (uvm_sequencer.seq_item_export (seqr st))))
  /\ exists obs,
      fetched st = Some <$> obs /\ started st = obs ++ in_flight st.
End Exchange.

(** ** pyuvm_reg_item.set_status (s23_pyuvm_reg_item.py, lines 145-149) *)

(** Python's [~] on a [bool]: the bitwise complement of the integer, so
    [~True = -2] and [~False = -1]. *)
Definition py_invert_bool (b : bool) : Z := Z.lnot (Z.b2z b).

(** Truth value of an [int] in an [if]. *)
Definition py_truthy (z : Z) : bool := negb (z =? 0)%Z.

Module pyuvm_reg_item.
(** The fields set by [__init__], lines 10-67. *)
Record t : Type := mk {
  element_kind : pyval;
  element : pyval;
  kind : pyval;
  value : list pyval;
  offset : Z;
  status : pyval;
  path : pyval;
  extension : pyval;
  bd_kind : string;
  name : string;
  addr : Z;
  data : Z;
  n_bits : Z;
  header : string
}.

Definition with_status (self : t) (s : pyval) : t :=
  mk (element_kind self) (element self) (kind self) (value self)
     (offset self) s (path self) (extension self) (bd_kind self)
     (name self) (addr self) (data self) (n_bits self) (header self).

Definition with_extension (self : t) (e : pyval) : t :=
  mk (element_kind self) (element self) (kind self) (value self)
     (offset self) (status self) (path self) e (bd_kind self)
     (name self) (addr self) (data self) (n_bits self) (header self).

Definition with_value (self : t) (v : list pyval) : t :=
  mk (element_kind self) (element self) (kind self) v
     (offset self) (status self) (path self) (extension self) (bd_kind self)
     (name self) (addr self) (data self) (n_bits self) (header self).

(** [set_value], lines 110-111: [idx] is not used. *)
Definition set_value (self : t) (v idx : pyval) : t :=
  with_value self (value self ++ [v]).

(** [set_value_size], lines 121-122: [[0]*sz] is empty for [sz <= 0]. *)
Definition set_value_size (self : t) (sz : Z) : t :=
  with_value self (replicate (Z.to_nat sz) (PyInt 0)).

(** [set_value_array] and [get_value_array], lines 129-134. *)
Definition set_value_array (self : t) (v : list pyval) : t :=
  with_value self v.

Definition get_value_array (self : t) : list pyval := value self.

(** [get_extension], line 172. *)
Definition get_extension (self : t) : pyval := extension self.

Section set_status.
(** [status_t] and [error_out] come from [s24_pyuvm_reg_includes], which
    is not among the sources: [isinstance_status_t v] stands for
    [isinstance(v, status_t)], and [error_out] for whatever the call
    [error_out(header, message)] does, as a value of some type [E]. *)
Variable isinstance_status_t : pyval -> bool.
Context {E : Type}.
Variable error_out : string -> string -> E.

(** [set_status]; the second component is the [error_out] call made, if
    any. *)
Definition set_status (self : t) (status : pyval) : t * option E :=
  if py_truthy (py_invert_bool (isinstance_status_t status)) then
    (self, Some (error_out (header self)
                   "Wrong assignment to status Enum"))
  else (with_status self status, None).

(** [set_extension], lines 164-168, with [isinstance_uvm_object v] for
    [isinstance(v, uvm_object)] ([uvm_object] is imported from pyuvm). *)
Variable isinstance_uvm_object : pyval -> bool.

Definition set_extension (self : t) (ext : pyval) : t * option E :=
  if py_truthy (py_invert_bool (isinstance_uvm_object ext)) then
    (self, Some (error_out (header self)
                   "bd kind is not string possible values RTL or GATE"))
  else (with_extension self ext, None).

(** [get_status], line 153. *)
Definition get_status (self : t) : pyval := status self.
End set_status.
End pyuvm_reg_item.

(** ** Sample objects used to exercise the statements below *)

Module Sample.
(** Three items with transaction ids 10, 20 and 20, and one with id 30. *)
Definition items : gmap loc uvm_sequence_item.t :=
  <[1 := uvm_sequence_item.init 10]>
  (<[2 := uvm_sequence_item.init 20]>
  (<[3 := uvm_sequence_item.init 20]>
  (<[4 := uvm_sequence_item.mk 30 (Some 77%Z) None]> ∅))).

(** An export whose driver holds item 1, with item 2 waiting. *)
Definition busy : uvm_seq_item_export.t :=
  uvm_seq_item_export.mk [2] [] (Some 1).

(** An export whose driver holds nothing. *)
Definition idle : uvm_seq_item_export.t :=
  uvm_seq_item_export.mk [2] [4] None.

(** A port connected to [busy]. *)
Definition busy_port : uvm_seq_item_port.t :=
  uvm_seq_item_port.mk (Some busy).



(** A world with one fresh sequencer, number 0, and the sample items. *)
Definition one_sequencer : world :=
  mk_world items (<[0 := uvm_sequencer.init]> ∅).

(** The same world once responses 1 and 2 have been queued. *)
Definition with_responses : world :=
  mk_world items
    (<[0 := uvm_sequencer.mk (uvm_seq_item_export.mk [] [1; 2] None) []]> ∅).
End Sample.

(** * Properties *)

(** ** The fetch / mark-done pairing of the export *)

(** C2: while [current_item] is occupied, [get_next_item] raises
    [UVMSequenceError] instead of returning an item.  Nothing is popped, the
    slot keeps its item and no event is pulsed; the port and the sequencer
    pass the error on. *)
Theorem get_next_item_occupied_raises
    (e : uvm_seq_item_export.t) (cur : loc) (q : UVMQueue.t) :
  uvm_seq_item_export.current_item e = Some cur ->
  uvm_seq_item_export.get_next_item e = Raised UVMSequenceError e []
  /\ uvm_seq_item_port.get_next_item (uvm_seq_item_port.mk (Some e))
     = Raised UVMSequenceError (uvm_seq_item_port.mk (Some e)) []
  /\ uvm_sequencer.get_next_item (uvm_sequencer.mk e q)
     = Raised UVMSequenceError (uvm_sequencer.mk e q) [].
Proof.
  intros Hcur.
  assert (uvm_seq_item_export.get_next_item e = Raised UVMSequenceError e [])
    as He.
  { unfold uvm_seq_item_export.get_next_item. by rewrite Hcur. }
  split; [exact He|].
  unfold uvm_seq_item_port.get_next_item, uvm_seq_item_port.on_export,
    uvm_sequencer.get_next_item, uvm_sequencer.on_export; simpl.
  by rewrite He.
Qed.

Lemma get_next_item_occupied_raises_witness :
  uvm_seq_item_export.current_item Sample.busy = Some 1
  /\ uvm_seq_item_export.get_next_item Sample.busy
     = Raised UVMSequenceError Sample.busy []
  /\ uvm_seq_item_port.get_next_item (uvm_seq_item_port.mk (Some Sample.busy))
     = Raised UVMSequenceError (uvm_seq_item_port.mk (Some Sample.busy)) []
  /\ uvm_sequencer.get_next_item (uvm_sequencer.mk Sample.busy [3])
     = Raised UVMSequenceError (uvm_sequencer.mk Sample.busy [3]) [].
Proof.
  split; [reflexivity|].
  apply (get_next_item_occupied_raises Sample.busy 1 [3]). reflexivity.
Defined.

(** A fetch occupies the slot from the moment the item is popped, so a second
    fetch fails whether or not the first has returned yet. *)
Lemma get_next_item_twice (e e1 : uvm_seq_item_export.t) ev ps :
  uvm_seq_item_export.get_next_item e = Blocked (OnPulse ev) e1 ps ->
  uvm_seq_item_export.get_next_item e1 = Raised UVMSequenceError e1 []
  /\ uvm_seq_item_export.get_next_item_return e1
     = Done (uvm_seq_item_export.current_item e1) e1 [].
Proof.
  unfold uvm_seq_item_export.get_next_item,
    uvm_seq_item_export.get_next_item_get.
  destruct (uvm_seq_item_export.current_item e) eqn:Hc; [done|].
  destruct (UVMQueue.get_nowait _) as [[x q']|] eqn:Hq; [|done].
  intros [= <- <- <-]. by simpl.
Qed.

(** C3: while [current_item] is empty, [item_done] raises
    [UVMSequenceError], whatever response is passed; the export is left as it
    was and no event is pulsed.  Through the port the same holds for every
    response that passes the port's own type check. *)
Theorem item_done_empty_raises
    (e : uvm_seq_item_export.t) (rsp : option loc) :
  uvm_seq_item_export.current_item e = None ->
  uvm_seq_item_export.item_done e rsp = Raised UVMSequenceError e []
  /\ uvm_seq_item_port.item_done (uvm_seq_item_port.mk (Some e))
       (from_option PyItem PyNone rsp)
     = Raised UVMSequenceError (uvm_seq_item_port.mk (Some e)) [].
Proof.
  intros Hcur.
  assert (forall r,
            uvm_seq_item_export.item_done e r = Raised UVMSequenceError e [])
    as He.
  { intros r. unfold uvm_seq_item_export.item_done. by rewrite Hcur. }
  split; [apply He|].
  unfold uvm_seq_item_port.item_done, uvm_seq_item_port.on_export.
  destruct rsp as [l|]; simpl; by rewrite He.
Qed.

Lemma item_done_empty_raises_witness :
  uvm_seq_item_export.current_item Sample.idle = None
  /\ uvm_seq_item_export.item_done Sample.idle (Some 4)
     = Raised UVMSequenceError Sample.idle []
  /\ uvm_seq_item_port.item_done (uvm_seq_item_port.mk (Some Sample.idle))
       (PyItem 4)
     = Raised UVMSequenceError (uvm_seq_item_port.mk (Some Sample.idle)) [].
Proof.
  split; [reflexivity|].
  apply (item_done_empty_raises Sample.idle (Some 4)). reflexivity.
Defined.

(** The slot is empty in a fresh export and after every successful
    [item_done]. *)
Lemma current_item_empty_init :
  uvm_seq_item_export.current_item uvm_seq_item_export.init = None.
Proof. reflexivity. Qed.

Lemma item_done_empties (e e1 : uvm_seq_item_export.t) rsp ps :
  uvm_seq_item_export.item_done e rsp = Done tt e1 ps ->
  uvm_seq_item_export.current_item e1 = None
  /\ exists cur,
      uvm_seq_item_export.current_item e = Some cur
      /\ head ps = Some (ItemPulse cur finish_condition).
Proof.
  unfold uvm_seq_item_export.item_done.
  destruct (uvm_seq_item_export.current_item e) as [cur|] eqn:Hc; [|done].
  destruct rsp as [r|]; simpl; intros [= <- <-]; eauto.
Qed.

(** ** Retrieval by id from the response queue *)

Section response_queue.
Context (h : gmap loc uvm_sequence_item.t) (txn_id : Z).

Local Abbreviation P := (ResponseQueue.has_txn_id h txn_id).

Lemma index_app_fresh (x : loc) (pre post : list loc) :
  x ∉ pre -> ResponseQueue.index x (pre ++ x :: post) = Some (length pre).
Proof.
  induction pre as [|y pre IH]; simpl; intros Hx.
  - by rewrite decide_True.
  - apply not_elem_of_cons in Hx as [Hne Hx].
    rewrite decide_False by done. by rewrite IH.
Qed.

Lemma remove_app_fresh (x : loc) (pre post : list loc) :
  x ∉ pre -> ResponseQueue.remove x (pre ++ x :: post) = pre ++ post.
Proof.
  induction pre as [|y pre IH]; simpl; intros Hx.
  - by rewrite decide_True.
  - apply not_elem_of_cons in Hx as [Hne Hx].
    rewrite decide_False by done. by rewrite IH.
Qed.

(** A queue with exactly one match splits around it. *)
Lemma filter_singleton_split (q : list loc) (x : loc) :
  filter P q = [x] ->
  exists pre post,
    q = pre ++ x :: post /\ P x
    /\ Forall (fun y => ~ P y) pre /\ Forall (fun y => ~ P y) post.
Proof.
  induction q as [|y q IH]; [done|].
  rewrite filter_cons. destruct (decide (P y)) as [Hy|Hy].
  - intros [= -> Hq]. exists [], q. repeat split; try done.
    apply Forall_forall. intros z Hz Pz.
    assert (z ∈ filter P q) as Hin by (apply list_elem_of_filter; done).
    rewrite Hq in Hin. by apply elem_of_nil in Hin.
  - intros Hq. destruct (IH Hq) as (pre & post & -> & Hx & Hpre & Hpost).
    exists (y :: pre), post. repeat split; try done. by constructor.
Qed.


End response_queue.

(** C4: when more than one queued response carries the requested transaction
    id, [get_response] by that id fails the assertion of line 140
    ([AssertionError], the fatal duplicate-id condition) instead of returning
    an item; the queue is left as it was.  The export hands the failure on. *)
Theorem get_response_duplicate_id_raises
    (h : gmap loc uvm_sequence_item.t) (e : uvm_seq_item_export.t)
    (txn_id : Z) :
  1 < length (filter (ResponseQueue.has_txn_id h txn_id)
                (uvm_seq_item_export.rsp_q e)) ->
  ResponseQueue.get_response h (uvm_seq_item_export.rsp_q e) (Some txn_id)
  = Raised AssertionError (uvm_seq_item_export.rsp_q e) []
  /\ uvm_seq_item_export.get_response h e (Some txn_id)
     = Raised AssertionError e [].
Proof.
  intros Hlen.
  assert (ResponseQueue.get_response h (uvm_seq_item_export.rsp_q e)
            (Some txn_id)
          = Raised AssertionError (uvm_seq_item_export.rsp_q e) []) as Hq.
  { unfold ResponseQueue.get_response.
    destruct (filter _ _) as [|x l] eqn:Hf; simpl in Hlen; [lia|].
    rewrite decide_False; [done|]. simpl. lia. }
  split; [exact Hq|].
  unfold uvm_seq_item_export.get_response. rewrite Hq. by destruct e.
Qed.

Lemma get_response_duplicate_id_raises_witness :
  1 < length (filter (ResponseQueue.has_txn_id Sample.items 20)
                (uvm_seq_item_export.rsp_q
                   (uvm_seq_item_export.mk [] [1; 2; 3] None)))
  /\ ResponseQueue.get_response Sample.items [1; 2; 3] (Some 20%Z)
     = Raised AssertionError [1; 2; 3] []
  /\ uvm_seq_item_export.get_response Sample.items
       (uvm_seq_item_export.mk [] [1; 2; 3] None) (Some 20%Z)
     = Raised AssertionError (uvm_seq_item_export.mk [] [1; 2; 3] None) [].
Proof.
  assert (1 < length (filter (ResponseQueue.has_txn_id Sample.items 20)
                        (uvm_seq_item_export.rsp_q
                           (uvm_seq_item_export.mk [] [1; 2; 3] None))))
    as H by (vm_compute; lia).
  split; [exact H|].
  exact (get_response_duplicate_id_raises Sample.items
           (uvm_seq_item_export.mk [] [1; 2; 3] None) 20 H).
Defined.



(** The same call evaluated: item 2 comes out, items 1 and 4 stay in order. *)
Example get_response_by_id_example :
  ResponseQueue.get_response Sample.items [1; 2; 4] (Some 20%Z)
  = Done 2 [1; 4] [].
Proof. vm_compute. reflexivity. Qed.

(** No match: the call suspends until the next [put_event] and leaves the
    queue alone; without an id the oldest response is returned. *)
Example get_response_absent_example :
  ResponseQueue.get_response Sample.items [1; 2; 4] (Some 99%Z)
  = Blocked (OnPulse PutEvent) [1; 2; 4] []
  /\ ResponseQueue.get_response Sample.items [1; 2; 4] None = Done 1 [2; 4] [].
Proof. vm_compute. split; reflexivity. Qed.

(** ** Linking a response to its request *)

(** C8: [r.set_context(q)] sets [r.response_id] to the pair
    [(q.parent_sequence_id, q.get_transaction_id())] and changes nothing
    else: the other fields of [r] keep their values and every other object,
    [q] included, is untouched. *)
Theorem set_context_sets_response_id_only
    (h : gmap loc uvm_sequence_item.t) (r q : loc)
    (ri qi : uvm_sequence_item.t) :
  h !! r = Some ri -> h !! q = Some qi ->
  exists h' ri',
    uvm_sequence_item.set_context r q h = Some h'
    /\ h' !! r = Some ri'
    /\ uvm_sequence_item.response_id ri'
       = Some (uvm_sequence_item.parent_sequence_id qi,
               uvm_sequence_item.get_transaction_id qi)
    /\ uvm_sequence_item.transaction_id ri'
       = uvm_sequence_item.transaction_id ri
    /\ uvm_sequence_item.parent_sequence_id ri'
       = uvm_sequence_item.parent_sequence_id ri
    /\ (forall l, l <> r -> h' !! l = h !! l)
    /\ (q <> r -> h' !! q = Some qi).
Proof.
  intros Hr Hq. unfold uvm_sequence_item.set_context.
  rewrite Hq, Hr. simpl. eexists _, _. split; [reflexivity|].
  split; [apply lookup_insert_eq|]. simpl.
  repeat split.
  - intros l Hl. by rewrite lookup_insert_ne.
  - intros Hne. by rewrite lookup_insert_ne.
Qed.

Lemma set_context_sets_response_id_only_witness :
  Sample.items !! 1 = Some (uvm_sequence_item.init 10)
  /\ Sample.items !! 4 = Some (uvm_sequence_item.mk 30 (Some 77%Z) None)
  /\ exists h' ri',
      uvm_sequence_item.set_context 1 4 Sample.items = Some h'
      /\ h' !! 1 = Some ri'
      /\ uvm_sequence_item.response_id ri'
         = Some (uvm_sequence_item.parent_sequence_id
                   (uvm_sequence_item.mk 30 (Some 77%Z) None),
                 uvm_sequence_item.get_transaction_id
                   (uvm_sequence_item.mk 30 (Some 77%Z) None))
      /\ uvm_sequence_item.transaction_id ri'
         = uvm_sequence_item.transaction_id (uvm_sequence_item.init 10)
      /\ uvm_sequence_item.parent_sequence_id ri'
         = uvm_sequence_item.parent_sequence_id (uvm_sequence_item.init 10)
      /\ (forall l, l <> 1 -> h' !! l = Sample.items !! l)
      /\ (4 <> 1 -> h' !! 4 = Some (uvm_sequence_item.mk 30 (Some 77%Z) None)).
Proof.
  assert (Sample.items !! 1 = Some (uvm_sequence_item.init 10)) as H1
    by (vm_compute; reflexivity).
  assert (Sample.items !! 4 = Some (uvm_sequence_item.mk 30 (Some 77%Z) None))
    as H4 by (vm_compute; reflexivity).
  split; [exact H1|]. split; [exact H4|].
  exact (set_context_sets_response_id_only Sample.items 1 4 _ _ H1 H4).
Defined.

(** The link of the sample response 1 to the sample request 4. *)
Example set_context_example :
  (uvm_sequence_item.set_context 1 4 Sample.items ≫= (.!! 1))
  = Some (uvm_sequence_item.mk 10 None (Some (Some 77%Z, 30%Z))).
Proof. vm_compute. reflexivity. Qed.

(** ** The register item's status setter *)

Lemma py_invert_bool_truthy (b : bool) : py_truthy (py_invert_bool b) = true.
Proof. by destruct b. Qed.

(** C10: [set_status] takes the error branch for every argument, a genuine
    [status_t] included, because [~isinstance(...)] is [-2] or [-1], never
    [0]; it calls [error_out] and never assigns, so the status field (like
    every other field) keeps its value. *)
Theorem set_status_never_assigns
    (isinstance_status_t : pyval -> bool) {E : Type}
    (error_out : string -> string -> E)
    (self : pyuvm_reg_item.t) (status : pyval) :
  py_invert_bool (isinstance_status_t status)
  = (if isinstance_status_t status then -2 else -1)%Z
  /\ pyuvm_reg_item.set_status isinstance_status_t error_out self status
     = (self, Some (error_out (pyuvm_reg_item.header self)
                      "Wrong assignment to status Enum"))
  /\ pyuvm_reg_item.get_status
       (pyuvm_reg_item.set_status isinstance_status_t error_out self status).1
     = pyuvm_reg_item.get_status self.
Proof.
  unfold pyuvm_reg_item.set_status. rewrite py_invert_bool_truthy.
  split; [by destruct (isinstance_status_t status)|]. done.
Qed.

(** ** The port's type check on responses *)

(** C5, as stated, fails at [None]: [None] is not a [uvm_sequence_item], yet
    [item_done(None)] on a port whose driver holds item 1 passes the guard of
    line 307, raises nothing, pulses the item's [finish_condition] and
    empties the slot. *)
Lemma item_done_none_is_not_rejected :
  uvm_seq_item_port.is_uvm_sequence_item PyNone = false
  /\ uvm_seq_item_port.item_done Sample.busy_port PyNone
     = Done tt
         (uvm_seq_item_port.mk (Some (uvm_seq_item_export.mk [2] [] None)))
         [ItemPulse 1 finish_condition]
  /\ uvm_seq_item_port.item_done Sample.busy_port PyNone
     <> Raised UVMFatalError Sample.busy_port [].
Proof. repeat split. discriminate. Qed.

(** C5, amended: for every value other than [None] that is not a
    [uvm_sequence_item], [item_done] on the port raises [UVMFatalError]
    before it reaches the export: the port and the export it is connected to
    (current slot, request queue, response queue) are as before, and no
    event is pulsed. *)
Theorem item_done_rejects_non_item
    (p : uvm_seq_item_port.t) (rsp : pyval) :
  rsp <> PyNone ->
  uvm_seq_item_port.is_uvm_sequence_item rsp = false ->
  uvm_seq_item_port.item_done p rsp = Raised UVMFatalError p [].
Proof.
  intros Hnone Hitem. unfold uvm_seq_item_port.item_done.
  rewrite decide_False by done. by rewrite Hitem.
Qed.

Lemma item_done_rejects_non_item_witness :
  PyInt 5 <> PyNone
  /\ uvm_seq_item_port.is_uvm_sequence_item (PyInt 5) = false
  /\ uvm_seq_item_port.item_done Sample.busy_port (PyInt 5)
     = Raised UVMFatalError Sample.busy_port [].
Proof.
  assert (PyInt 5 <> PyNone) as H by discriminate.
  split; [exact H|]. split; [reflexivity|].
  exact (item_done_rejects_non_item Sample.busy_port (PyInt 5) H eq_refl).
Defined.

(** What the check lets through reaches the export's [item_done]. *)
Lemma item_done_accepts (e : uvm_seq_item_export.t) (rsp : option loc) :
  uvm_seq_item_port.item_done (uvm_seq_item_port.mk (Some e))
    (from_option PyItem PyNone rsp)
  = map_state (fun e' => uvm_seq_item_port.mk (Some e'))
      (uvm_seq_item_export.item_done e rsp).
Proof. by destruct rsp. Qed.

(** ** Starting a sequence *)




(** A hook that raises ends [start] there; the later hooks do not run. *)
Lemma start_hook_raises {W : Type}
    (pre_body body post_body :
       uvm_sequence.t * W -> outcome (uvm_sequence.t * W) unit)
    (self : uvm_sequence.t) (s : nat) (w : W) e st ps :
  body (uvm_sequence.mk (Some s) (uvm_sequence.running_item self)
          (uvm_sequence.sequence_id self), w) = Raised e st ps ->
  uvm_sequence.start pre_body body post_body self (PySequencer s) false w
  = Raised e st ps.
Proof. intros H. unfold uvm_sequence.start. simpl. by rewrite H. Qed.

(** ** Retrieving a response from within a sequence *)





(** A sequence bound to sequencer 0 whose last started item is 2 (transaction
    id 20) gets item 2 out of the response queue, past the older item 1. *)
Example get_response_default_example :
  uvm_sequence.get_response (uvm_sequence.mk (Some 0) (Some 2) 5) None
    Sample.with_responses
  = Done 2
      (mk_world Sample.items
         (<[0 := uvm_sequencer.mk (uvm_seq_item_export.mk [] [1] None) []]>
            (sequencers Sample.with_responses))) [].
Proof. vm_compute. reflexivity. Qed.

(** Without a bound sequencer the call fails at once, and so does
    [start_item] (the "virtual sequence" case). *)
Lemma unbound_sequence_raises (self : uvm_sequence.t) (w : world) item tid :
  uvm_sequence.sequencer self = None ->
  uvm_sequence.get_response self tid w = Raised UVMSequenceError w []
  /\ uvm_sequence.start_item self item w
     = Raised UVMSequenceError (self, w) []
  /\ uvm_sequence.finish_item self item w
     = Raised UVMSequenceError (self, w) [].
Proof.
  intros H. unfold uvm_sequence.get_response, uvm_sequence.start_item,
    uvm_sequence.finish_item. by rewrite H.
Qed.

(** ** Order of delivery through the sequencer *)

Section exchange.
Import Exchange.

Lemma popped_wake_consumer ps c : popped (wake_consumer ps c) = popped c.
Proof. destruct c; simpl; try done. by destruct (decide _). Qed.

Lemma in_hand_popped st :
  in_hand st
  = if popped (consumer st)
    then option_list (uvm_seq_item_export.current_item
                        (uvm_sequencer.seq_item_export (seqr st)))
    else [].
Proof. unfold in_hand. by destruct (consumer st). Qed.

Lemma inv_init : inv init.
Proof. split; [done|]. by exists []. Qed.

Local Ltac crush :=
  unfold inv, in_flight, held, UVMQueue.put_nowait;
  rewrite ?in_hand_popped; simpl;
  rewrite ?popped_wake_consumer; simpl.

Lemma inv_step st a : inv st -> inv (step st a).
Proof.
  destruct st as [[[req rsp cur] sq] prods fwd cons sts fts].
  intros [Hslot (obs & Hf & Hs)]. simpl in Hf. revert Hslot Hs.
  crush. intros Hslot Hs.
  destruct a as [p item|p item| | |r]; simpl.
  - (* start_item *)
    destruct (prods !! p); crush; [eauto|].
    split; [done|]. exists obs. split; [done|].
    rewrite Hs. by rewrite <- !app_assoc.
  - (* finish_item *)
    destruct (prods !! p); crush; eauto.
  - (* run_phase *)
    destruct fwd as [|x]; simpl.
    + destruct sq as [|x sq]; crush; eauto.
    + crush. split; [done|]. exists obs. split; [done|].
      rewrite Hs. by rewrite <- !app_assoc.
  - (* get_next_item *)
    destruct cons as [| |ev|]; simpl in *.
    + destruct cur as [c|]; crush; [eauto|].
      destruct req as [|x req]; crush; eauto.
    + destruct req as [|x req]; crush; eauto.
    + crush. eauto.
    + destruct (Hslot eq_refl) as [c ->]. crush.
      split; [done|]. exists (obs ++ [c]). split.
      * by rewrite Hf, fmap_app.
      * rewrite Hs. simpl. by rewrite <- app_assoc.
  - (* item_done *)
    destruct cons as [| |ev|]; simpl in *; try (crush; by eauto).
    destruct cur as [c|]; [|crush; by eauto].
    destruct r as [r|]; crush; (split; [done|]; eauto).
Qed.

Lemma inv_run acts st : inv st -> inv (run st acts).
Proof.
  revert st. induction acts as [|a acts IH]; intros st Hst; [done|].
  apply IH. by apply inv_step.
Qed.
End exchange.

(** *** A schedule that delivers every item *)

Section delivery.
Import Exchange.

Lemma wake_producers_nil (m : gmap nat pulse) : wake_producers [] m = m.
Proof.
  apply map_filter_id. intros i x _. simpl. apply not_elem_of_nil.
Qed.

Lemma lookup_wake_None ps (m : gmap nat pulse) i :
  m !! i = None -> wake_producers ps m !! i = None.
Proof. intros H. apply map_lookup_filter_None. by left. Qed.

Lemma lookup_wake_in ps (m : gmap nat pulse) i ev :
  m !! i = Some ev -> ev ∈ ps -> wake_producers ps m !! i = None.
Proof.
  intros H Hin. apply map_lookup_filter_None. right.
  intros x Hx. simpl. congruence.
Qed.

Lemma lookup_wake_notin ps (m : gmap nat pulse) i ev :
  m !! i = Some ev -> ev ∉ ps -> wake_producers ps m !! i = Some ev.
Proof. intros H Hin. by apply map_lookup_filter_Some. Qed.

Lemma ready_wake ev m k ls :
  ready m k ls -> ready (wake_producers [ev] m) k ls.
Proof.
  intros H i l Hl. destruct (H i l Hl) as [Hn|Hs].
  - left. by apply lookup_wake_None.
  - destruct (decide (ItemPulse l start_condition ∈ [ev])).
    + left. by eapply lookup_wake_in.
    + right. by apply lookup_wake_notin.
Qed.

Lemma wake_consumer_nil c : wake_consumer [] c = c.
Proof.
  destruct c; simpl; try done.
Qed.

Lemma wake_consumer_hit ev : wake_consumer [ev] (CWaitReady ev) = CReturn.
Proof. simpl. rewrite decide_True; [done|apply list_elem_of_here]. Qed.

Local Abbreviation Sq e q := (uvm_sequencer.mk e q).
Local Abbreviation Ex r s c := (uvm_seq_item_export.mk r s c).

Lemma run_cons st a acts : run st (a :: acts) = run (step st a) acts.
Proof. reflexivity. Qed.

Lemma run_app st acts1 acts2 :
  run st (acts1 ++ acts2) = run (run st acts1) acts2.
Proof. apply foldl_app. Qed.

Lemma step_start_item e q m f c sts fts p item :
  m !! p = None ->
  step (mk (Sq e q) m f c sts fts) (StartItem p item)
  = mk (Sq e (q ++ [item])) (<[p := ItemPulse item start_condition]> m)
       f c (sts ++ [item]) fts.
Proof.
  intros Hp. simpl. rewrite Hp. unfold producer_after. simpl.
  unfold set_producer, deliver. simpl.
  by rewrite wake_producers_nil, wake_consumer_nil.
Qed.

Lemma step_forward_get e x q m c sts fts :
  step (mk (Sq e (x :: q)) m FGet c sts fts) Forward
  = mk (Sq e q) m (FPut x) c sts fts.
Proof.
  simpl. unfold set_forwarder, deliver. simpl.
  by rewrite wake_producers_nil, wake_consumer_nil.
Qed.

Lemma step_forward_put r s cur q x m c sts fts :
  step (mk (Sq (Ex r s cur) q) m (FPut x) c sts fts) Forward
  = mk (Sq (Ex (r ++ [x]) s cur) q) m FGet c sts fts.
Proof.
  simpl. unfold set_forwarder, deliver. simpl.
  by rewrite wake_producers_nil, wake_consumer_nil.
Qed.

Lemma step_get_next_item_pop x r s q m f sts fts :
  step (mk (Sq (Ex (x :: r) s None) q) m f CRun sts fts) GetNextItem
  = mk (Sq (Ex r s (Some x)) q)
       (wake_producers [ItemPulse x start_condition] m) f
       (CWaitReady (ItemPulse x item_ready)) sts fts.
Proof. reflexivity. Qed.

Lemma step_finish_item e q m f c sts fts p item :
  m !! p = None ->
  step (mk (Sq e q) m f c sts fts) (FinishItem p item)
  = mk (Sq e q)
       (<[p := ItemPulse item finish_condition]>
          (wake_producers [ItemPulse item item_ready] m)) f
       (wake_consumer [ItemPulse item item_ready] c) sts fts.
Proof. intros Hp. simpl. by rewrite Hp. Qed.

Lemma step_get_next_item_return r s cur q m f sts fts :
  step (mk (Sq (Ex r s cur) q) m f CReturn sts fts) GetNextItem
  = mk (Sq (Ex r s cur) q) m f CRun sts (fts ++ [cur]).
Proof.
  simpl. unfold consumer_after, log_fetched, set_consumer, deliver. simpl.
  by rewrite wake_producers_nil.
Qed.

Lemma step_item_done r s x q m f sts fts :
  step (mk (Sq (Ex r s (Some x)) q) m f CRun sts fts) (ItemDone None)
  = mk (Sq (Ex r s None) q)
       (wake_producers [ItemPulse x finish_condition] m) f CRun sts fts.
Proof. reflexivity. Qed.

Lemma run_serve k l rest rsp m sts fts :
  ready m k (l :: rest) ->
  exists m',
    run (mk (Sq (Ex [] rsp None) (l :: rest)) m FGet CRun sts fts)
      (serve k l)
    = mk (Sq (Ex [] rsp None) rest) m' FGet CRun sts (fts ++ [Some l])
    /\ ready m' (S k) rest.
Proof.
  intros Hr.
  set (m1 := wake_producers [ItemPulse l start_condition] m).
  assert (m1 !! k = None) as Hk.
  { destruct (Hr 0 l eq_refl) as [Hn|Hs]; rewrite Nat.add_0_r in *.
    - by apply lookup_wake_None.
    - eapply lookup_wake_in; [done|]. apply list_elem_of_here. }
  eexists. split.
  - unfold serve.
    rewrite run_cons, step_forward_get.
    rewrite run_cons, step_forward_put. simpl app.
    rewrite run_cons, step_get_next_item_pop. fold m1.
    rewrite run_cons, step_finish_item by done.
    rewrite wake_consumer_hit.
    rewrite run_cons, step_get_next_item_return.
    rewrite run_cons, step_item_done.
    reflexivity.
  - intros i l' Hl'.
    assert (ready m1 k (l :: rest)) as Hr1 by (by apply ready_wake).
    destruct (Hr1 (S i) l' Hl') as [Hn|Hs];
      replace (k + S i) with (S k + i) in * by lia.
    + left. apply lookup_wake_None. rewrite lookup_insert_ne by lia.
      by apply lookup_wake_None.
    + assert (wake_producers [ItemPulse l item_ready] m1 !! (S k + i)
              = Some (ItemPulse l' start_condition)) as H2.
      { apply lookup_wake_notin; [done|].
        rewrite list_elem_of_singleton. discriminate. }
      right. apply lookup_wake_notin.
      * rewrite lookup_insert_ne by lia. done.
      * rewrite list_elem_of_singleton. discriminate.
Qed.

Lemma run_serve_all ls k rsp m sts fts :
  ready m k ls ->
  exists m',
    run (mk (Sq (Ex [] rsp None) ls) m FGet CRun sts fts) (serve_all k ls)
    = mk (Sq (Ex [] rsp None) []) m' FGet CRun sts (fts ++ (Some <$> ls)).
Proof.
  revert k m fts. induction ls as [|l ls IH]; intros k m fts Hr.
  - exists m. simpl. by rewrite app_nil_r.
  - destruct (run_serve k l ls rsp m sts fts Hr) as (m1 & Hrun & Hr1).
    destruct (IH (S k) m1 (fts ++ [Some l]) Hr1) as (m2 & Hrun2).
    exists m2.
    change (serve_all k (l :: ls)) with (serve k l ++ serve_all (S k) ls).
    rewrite run_app, Hrun, Hrun2.
    by rewrite <- app_assoc.
Qed.

Lemma run_start_all ls k e q m f c sts fts :
  (forall i, k <= i -> m !! i = None) ->
  exists m',
    run (mk (Sq e q) m f c sts fts) (start_all k ls)
    = mk (Sq e (q ++ ls)) m' f c (sts ++ ls) fts
    /\ (forall j, j < k -> m' !! j = m !! j)
    /\ (forall i l, ls !! i = Some l ->
                    m' !! (k + i) = Some (ItemPulse l start_condition)).
Proof.
  revert k q m sts. induction ls as [|l ls IH]; intros k q m sts Hfree.
  - exists m. simpl. rewrite !app_nil_r. repeat split; try done.
  - simpl start_all. rewrite run_cons, step_start_item by (apply Hfree; lia).
    destruct (IH (S k) (q ++ [l]) (<[k := ItemPulse l start_condition]> m)
                (sts ++ [l])) as (m' & Hrun & Hlow & Hnew).
    { intros i Hi. rewrite lookup_insert_ne by lia. apply Hfree. lia. }
    exists m'. rewrite Hrun, <- !app_assoc. split; [done|]. split.
    + intros j Hj. rewrite Hlow by lia. by rewrite lookup_insert_ne by lia.
    + intros [|i] l' Hl'; simpl in Hl'.
      * injection Hl' as <-. rewrite Nat.add_0_r, Hlow by lia.
        by rewrite lookup_insert_eq.
      * replace (k + S i) with (S k + i) by lia. by apply Hnew.
Qed.

Lemma deliver_all_delivers ls :
  fetched (run init (deliver_all ls)) = Some <$> ls
  /\ started (run init (deliver_all ls)) = ls
  /\ in_flight (run init (deliver_all ls)) = [].
Proof.
  unfold deliver_all, init, uvm_sequencer.init, uvm_seq_item_export.init.
  rewrite run_app.
  destruct (run_start_all ls 0 (Ex [] [] None) [] ∅ FGet CRun [] [])
    as (m1 & Hrun & _ & Hnew).
  { intros i _. apply lookup_empty. }
  simpl in Hrun. rewrite Hrun.
  destruct (run_serve_all ls 0 [] m1 ls []) as (m2 & ->).
  { intros i l Hl. right. by apply Hnew. }
  done.
Qed.
End delivery.

(** The scenario of two producers: A starts item 1, B starts item 2, the
    driver fetches twice and receives 1 before 2. *)
Example two_producers_in_order :
  Exchange.fetched (Exchange.run Exchange.init (Exchange.deliver_all [1; 2]))
  = [Some 1; Some 2]
  /\ Exchange.started (Exchange.run Exchange.init (Exchange.deliver_all [1; 2]))
     = [1; 2].
Proof. vm_compute. split; reflexivity. Qed.

(** The forwarder may lag behind and the producers may start in any order of
    task numbers: the driver still sees the call order. *)
Example lagging_forwarder_in_order :
  Exchange.fetched
    (Exchange.run Exchange.init
       [Exchange.StartItem 7 3; Exchange.Forward; Exchange.StartItem 2 1;
        Exchange.GetNextItem; Exchange.Forward; Exchange.StartItem 5 2;
        Exchange.GetNextItem; Exchange.FinishItem 7 3; Exchange.Forward;
        Exchange.GetNextItem; Exchange.ItemDone None; Exchange.Forward;
        Exchange.GetNextItem; Exchange.FinishItem 2 1; Exchange.GetNextItem;
        Exchange.ItemDone None; Exchange.Forward; Exchange.Forward;
        Exchange.GetNextItem; Exchange.FinishItem 5 2; Exchange.GetNextItem])
  = [Some 3; Some 1; Some 2].
Proof. vm_compute. reflexivity. Qed.

(** The events are edge-triggered: when item 1 is released before the driver
    has popped it, the pulse of [item_ready] finds nobody waiting and the
    driver stays suspended in [get_next_item]. *)
Example early_release_is_lost :
  let st :=
    Exchange.run Exchange.init
      [Exchange.StartItem 0 1; Exchange.FinishItem 1 1; Exchange.Forward;
       Exchange.Forward; Exchange.GetNextItem; Exchange.GetNextItem] in
  Exchange.consumer st = Exchange.CWaitReady (ItemPulse 1 item_ready)
  /\ Exchange.fetched st = [].
Proof. vm_compute. split; reflexivity. Qed.

(** C1: whatever the schedule of any number of producers, the forwarding task
    and the driver, every value [get_next_item] has returned is an item, and
    the returned items, followed by the items still on their way (popped but
    not yet returned, in the request queue, held by the forwarder, in the
    sequencer's queue), are the arguments of the [start_item] calls in call
    order.  So the driver sees the items in exactly the order in which they
    were started, none skipped, repeated or overtaken.  And the items do
    arrive: when N producers each start one item and each item is then
    forwarded, fetched, released and marked done, the driver has fetched all
    N in start order. *)
Theorem fetch_order_is_start_item_order :
  (forall acts : list Exchange.action,
     exists obs,
       Exchange.fetched (Exchange.run Exchange.init acts) = Some <$> obs
       /\ Exchange.started (Exchange.run Exchange.init acts)
          = obs ++ Exchange.in_flight (Exchange.run Exchange.init acts)
       /\ obs `prefix_of` Exchange.started (Exchange.run Exchange.init acts))
  /\ (forall ls : list loc,
        Exchange.started (Exchange.run Exchange.init (Exchange.deliver_all ls))
        = ls
        /\ Exchange.fetched
             (Exchange.run Exchange.init (Exchange.deliver_all ls))
           = Some <$> ls).
Proof.
  split.
  - intros acts.
    destruct (inv_run acts Exchange.init inv_init) as [_ (obs & Hf & Hs)].
    exists obs. repeat split; try done.
    rewrite Hs. by apply prefix_app_r.
  - intros ls. destruct (deliver_all_delivers ls) as (Hf & Hs & _). done.
Qed.

(** * Further properties of the modelled code *)

(** ** ResponseQueue *)

(** X1: what [get_response] by id can do, for every queue.  It returns only
    when exactly one queued item carries the id: that item, which leaves the
    queue one shorter.  With no match it suspends on [put_event]; with
    several it fails the assertion.  Unless it returns, the queue is as
    before; it raises nothing else (the [index] call of line 142 cannot
    fail) and pulses no event. *)
Theorem get_response_by_id_outcomes
    (h : gmap loc uvm_sequence_item.t) (q : ResponseQueue.t) (txn_id : Z) :
  match ResponseQueue.get_response h q (Some txn_id) with
  | Done x q' ps =>
      filter (ResponseQueue.has_txn_id h txn_id) q = [x]
      /\ ResponseQueue.has_txn_id h txn_id x /\ x ∈ q
      /\ length q = S (length q') /\ ps = []
  | Raised e q' ps =>
      1 < length (filter (ResponseQueue.has_txn_id h txn_id) q)
      /\ e = AssertionError /\ q' = q /\ ps = []
  | Blocked on q' ps =>
      filter (ResponseQueue.has_txn_id h txn_id) q = []
      /\ on = OnPulse PutEvent /\ q' = q /\ ps = []
  end.
Proof.
  unfold ResponseQueue.get_response.
  destruct (filter (ResponseQueue.has_txn_id h txn_id) q) as [|x l] eqn:Hf;
    [done|].
  destruct (decide (length (x :: l) = 1)) as [Hl|Hl].
  - destruct l; [|done].
    destruct (filter_singleton_split h txn_id q x Hf)
      as (pre & post & -> & Hx & Hpre & Hpost).
    assert (x ∉ pre) as Hfresh.
    { intros Hin. by apply (proj1 (Forall_forall _ _) Hpre x Hin). }
    rewrite index_app_fresh, remove_app_fresh by done.
    repeat split; try done.
    + apply elem_of_app. right. apply list_elem_of_here.
    + rewrite !length_app. simpl. lia.
  - repeat split; try done. simpl in *. lia.
Qed.




Lemma put_all_app (xs : list loc) (q : ResponseQueue.t) :
  ResponseQueue.put_all q xs = q ++ xs.
Proof.
  revert q. induction xs as [|x xs IH]; intros q; simpl.
  - by rewrite app_nil_r.
  - unfold ResponseQueue.put_all in *. simpl. rewrite IH.
    unfold UVMQueue.put_nowait. by rewrite <- app_assoc.
Qed.

Lemma get_responses_take_drop h (n : nat) (q : ResponseQueue.t) :
  ResponseQueue.get_responses h n q = (take n q, drop n q).
Proof.
  revert q. induction n as [|n IH]; intros q; simpl; [done|].
  destruct q as [|x q]; simpl; [done|]. by rewrite IH.
Qed.

(** X3: without an id the queue is first-in first-out, whatever the
    transaction ids: after any puts, [n] calls of [get_response()] return the
    [n] oldest items in insertion order and leave the rest in order. *)
Theorem get_response_without_id_is_fifo
    (h : gmap loc uvm_sequence_item.t) (q : ResponseQueue.t)
    (xs : list loc) (n : nat) :
  ResponseQueue.get_responses h n (ResponseQueue.put_all q xs)
  = (take n (q ++ xs), drop n (q ++ xs)).
Proof. by rewrite put_all_app, get_responses_take_drop. Qed.

(** ** The export: fetch, mark done, responses *)

(** X4: the two halves of the pairing fit.  A [get_next_item] that pops an
    item takes the oldest request, pulses its [start_condition] and waits
    for its [item_ready]; the [item_done] that follows succeeds whatever the
    response, pulses that item's [finish_condition] first and empties the
    slot; and after a successful [item_done] the next [get_next_item] is
    accepted again. *)
Theorem fetch_then_done_then_fetch
    (e e1 : uvm_seq_item_export.t) (ev : pulse) (ps : list pulse)
    (rsp : option loc) :
  uvm_seq_item_export.get_next_item e = Blocked (OnPulse ev) e1 ps ->
  exists cur e2 ps2,
    head (uvm_seq_item_export.req_q e) = Some cur
    /\ ev = ItemPulse cur item_ready
    /\ ps = [ItemPulse cur start_condition]
    /\ uvm_seq_item_export.get_next_item_return e1 = Done (Some cur) e1 []
    /\ uvm_seq_item_export.item_done e1 rsp
       = Done tt e2 (ItemPulse cur finish_condition :: ps2)
    /\ uvm_seq_item_export.req_q e2 = tail (uvm_seq_item_export.req_q e)
    /\ uvm_seq_item_export.current_item e2 = None
    /\ uvm_seq_item_export.get_next_item e2
       = uvm_seq_item_export.get_next_item_get e2.
Proof.
  unfold uvm_seq_item_export.get_next_item,
    uvm_seq_item_export.get_next_item_get.
  destruct e as [req rq cur0]. simpl.
  destruct cur0 as [c|]; [done|].
  destruct req as [|x req]; simpl; [done|].
  intros [= <- <- <-]. exists x.
  destruct rsp as [r|]; simpl; eexists _, _; repeat split.
Qed.

Lemma fetch_then_done_then_fetch_witness :
  uvm_seq_item_export.get_next_item Sample.idle
  = Blocked (OnPulse (ItemPulse 2 item_ready))
      (uvm_seq_item_export.mk [] [4] (Some 2)) [ItemPulse 2 start_condition]
  /\ exists cur e2 ps2,
      head (uvm_seq_item_export.req_q Sample.idle) = Some cur
      /\ ItemPulse 2 item_ready = ItemPulse cur item_ready
      /\ [ItemPulse 2 start_condition] = [ItemPulse cur start_condition]
      /\ uvm_seq_item_export.get_next_item_return
           (uvm_seq_item_export.mk [] [4] (Some 2))
         = Done (Some cur) (uvm_seq_item_export.mk [] [4] (Some 2)) []
      /\ uvm_seq_item_export.item_done
           (uvm_seq_item_export.mk [] [4] (Some 2)) (Some 1)
         = Done tt e2 (ItemPulse cur finish_condition :: ps2)
      /\ uvm_seq_item_export.req_q e2
         = tail (uvm_seq_item_export.req_q Sample.idle)
      /\ uvm_seq_item_export.current_item e2 = None
      /\ uvm_seq_item_export.get_next_item e2
         = uvm_seq_item_export.get_next_item_get e2.
Proof.
  split; [reflexivity|].
  exact (fetch_then_done_then_fetch Sample.idle _ _ _ (Some 1) eq_refl).
Defined.



(** X6: a fetch that finds the request queue empty suspends without taking
    the slot, and when it goes on after a [put_req] it pops exactly the item
    put, pulsing its [start_condition]. *)
Theorem fetch_on_empty_queue_takes_next_put
    (e : uvm_seq_item_export.t) (item : loc) :
  uvm_seq_item_export.current_item e = None ->
  uvm_seq_item_export.req_q e = [] ->
  uvm_seq_item_export.get_next_item e = Blocked (OnGet ReqQ) e []
  /\ bind (uvm_seq_item_export.put_req e item)
       (fun _ e1 => uvm_seq_item_export.get_next_item_get e1)
     = Blocked (OnPulse (ItemPulse item item_ready))
         (uvm_seq_item_export.mk [] (uvm_seq_item_export.rsp_q e) (Some item))
         [ItemPulse item start_condition].
Proof.
  destruct e as [req rq c]. simpl. intros -> ->. by split.
Qed.

Lemma fetch_on_empty_queue_takes_next_put_witness :
  uvm_seq_item_export.current_item uvm_seq_item_export.init = None
  /\ uvm_seq_item_export.req_q uvm_seq_item_export.init = []
  /\ uvm_seq_item_export.get_next_item uvm_seq_item_export.init
     = Blocked (OnGet ReqQ) uvm_seq_item_export.init []
  /\ bind (uvm_seq_item_export.put_req uvm_seq_item_export.init 3)
       (fun _ e1 => uvm_seq_item_export.get_next_item_get e1)
     = Blocked (OnPulse (ItemPulse 3 item_ready))
         (uvm_seq_item_export.mk []
            (uvm_seq_item_export.rsp_q uvm_seq_item_export.init) (Some 3))
         [ItemPulse 3 start_condition].
Proof.
  split; [reflexivity|]. split; [reflexivity|].
  exact (fetch_on_empty_queue_takes_next_put uvm_seq_item_export.init 3
           eq_refl eq_refl).
Defined.

(** ** The port *)

(** X7: [put_response] on the port takes sequence items only.  Every other
    value, [None] included (unlike [item_done]), raises [UVMFatalError]
    before the export is touched, connected or not; an item is appended to
    the response queue of the connected export with a [put_event] pulse, the
    request queue and the slot staying as they are. *)
Theorem port_put_response_takes_items_only
    (p : uvm_seq_item_port.t) (v : pyval) (e : uvm_seq_item_export.t)
    (l : loc) :
  (uvm_seq_item_port.is_uvm_sequence_item v = false ->
   uvm_seq_item_port.put_response p v = Raised UVMFatalError p [])
  /\ uvm_seq_item_port.put_response (uvm_seq_item_port.mk (Some e)) (PyItem l)
     = Done tt
         (uvm_seq_item_port.mk
            (Some (uvm_seq_item_export.mk (uvm_seq_item_export.req_q e)
                     (uvm_seq_item_export.rsp_q e ++ [l])
                     (uvm_seq_item_export.current_item e))))
         [PutEvent].
Proof.
  split; [|done]. by destruct v.
Qed.

Lemma port_put_response_takes_items_only_witness :
  uvm_seq_item_port.is_uvm_sequence_item PyNone = false
  /\ uvm_seq_item_port.put_response Sample.busy_port PyNone
     = Raised UVMFatalError Sample.busy_port [].
Proof.
  split; [reflexivity|].
  exact (proj1 (port_put_response_takes_items_only Sample.busy_port PyNone
                  Sample.busy 1) eq_refl).
Defined.

(** X8: on a port that is not connected every call fails and the port stays
    unconnected: [get_next_item] with the [AssertionError] of line 295, the
    other calls with the [AttributeError] of the access to [None]; the type
    checks of [put_response] and [item_done] come first. *)
Theorem unconnected_port_fails
    (h : gmap loc uvm_sequence_item.t) (item : loc) (tid : option Z)
    (v : pyval) :
  let p := uvm_seq_item_port.mk None in
  uvm_seq_item_port.get_next_item p = Raised AssertionError p []
  /\ uvm_seq_item_port.put_req p item = Raised AttributeError p []
  /\ uvm_seq_item_port.get_response h p tid = Raised AttributeError p []
  /\ uvm_seq_item_port.put_response p v
     = Raised (if uvm_seq_item_port.is_uvm_sequence_item v
               then AttributeError else UVMFatalError) p []
  /\ uvm_seq_item_port.item_done p v
     = Raised (if decide (v = PyNone) then AttributeError
               else if uvm_seq_item_port.is_uvm_sequence_item v
                    then AttributeError else UVMFatalError) p [].
Proof. repeat split; by destruct v. Qed.

(** ** The sequencer *)

(** X9: [uvm_sequencer.put_req] does not go through the sequencer's own
    queue: the request is appended to the export's request queue at once, so
    on an idle export with no request waiting it is what the driver fetches
    next, ahead of every item that [start_item] has queued and the forwarding
    task has not moved yet. *)
Theorem sequencer_put_req_bypasses_seq_q
    (e : uvm_seq_item_export.t) (q : UVMQueue.t) (req : loc) :
  uvm_seq_item_export.current_item e = None ->
  uvm_seq_item_export.req_q e = [] ->
  bind (uvm_sequencer.put_req (uvm_sequencer.mk e q) req)
    (fun _ sq => uvm_sequencer.get_next_item sq)
  = Blocked (OnPulse (ItemPulse req item_ready))
      (uvm_sequencer.mk
         (uvm_seq_item_export.mk [] (uvm_seq_item_export.rsp_q e) (Some req))
         q)
      [ItemPulse req start_condition].
Proof.
  destruct e as [r rq c]. simpl. by intros -> ->.
Qed.

Lemma sequencer_put_req_bypasses_seq_q_witness :
  uvm_seq_item_export.current_item uvm_seq_item_export.init = None
  /\ uvm_seq_item_export.req_q uvm_seq_item_export.init = []
  /\ bind (uvm_sequencer.put_req
             (uvm_sequencer.mk uvm_seq_item_export.init [1; 2]) 3)
       (fun _ sq => uvm_sequencer.get_next_item sq)
     = Blocked (OnPulse (ItemPulse 3 item_ready))
         (uvm_sequencer.mk
            (uvm_seq_item_export.mk []
               (uvm_seq_item_export.rsp_q uvm_seq_item_export.init) (Some 3))
            [1; 2])
         [ItemPulse 3 start_condition].
Proof.
  split; [reflexivity|]. split; [reflexivity|].
  exact (sequencer_put_req_bypasses_seq_q uvm_seq_item_export.init [1; 2] 3
           eq_refl eq_refl).
Defined.

(** ** The sequence *)

(** X10: [start_item] of a bound sequence stamps the item with the
    sequence's id, remembers it as [running_item], appends it to the queue of
    the bound sequencer and suspends on the item's [start_condition].
    Nothing else moves: the item keeps its transaction id and response link,
    the other items and the other sequencers are as before, and so is the
    export of the bound sequencer. *)
Theorem sequence_start_item_effects
    (self : uvm_sequence.t) (s : nat) (item : loc) (w : world)
    (sq : uvm_sequencer.t) :
  uvm_sequence.sequencer self = Some s ->
  sequencers w !! s = Some sq ->
  exists w',
    uvm_sequence.start_item self item w
    = Blocked (OnPulse (ItemPulse item start_condition))
        (uvm_sequence.mk (Some s) (Some item) (uvm_sequence.sequence_id self),
         w') []
    /\ sequencers w' !! s
       = Some (uvm_sequencer.mk (uvm_sequencer.seq_item_export sq)
                 (uvm_sequencer.seq_q sq ++ [item]))
    /\ (forall s', s' <> s -> sequencers w' !! s' = sequencers w !! s')
    /\ items w' !! item
       = (fun it =>
            uvm_sequence_item.mk (uvm_sequence_item.transaction_id it)
              (Some (uvm_sequence.sequence_id self))
              (uvm_sequence_item.response_id it)) <$> items w !! item
    /\ (forall l, l <> item -> items w' !! l = items w !! l).
Proof.
  intros Hs Hsq. unfold uvm_sequence.start_item, uvm_sequence.on_sequencer.
  rewrite Hs. simpl. rewrite Hsq. simpl. eexists. split; [reflexivity|].
  simpl. repeat split.
  - by rewrite lookup_insert_eq.
  - intros s' Hne. by rewrite lookup_insert_ne.
  - by rewrite lookup_alter_eq.
  - intros l Hne. by rewrite lookup_alter_ne.
Qed.

Lemma sequence_start_item_effects_witness :
  uvm_sequence.sequencer (uvm_sequence.mk (Some 0) None 5) = Some 0
  /\ sequencers Sample.one_sequencer !! 0 = Some uvm_sequencer.init
  /\ exists w',
      uvm_sequence.start_item (uvm_sequence.mk (Some 0) None 5) 2
        Sample.one_sequencer
      = Blocked (OnPulse (ItemPulse 2 start_condition))
          (uvm_sequence.mk (Some 0) (Some 2)
             (uvm_sequence.sequence_id (uvm_sequence.mk (Some 0) None 5)),
           w') []
      /\ sequencers w' !! 0
         = Some (uvm_sequencer.mk
                   (uvm_sequencer.seq_item_export uvm_sequencer.init)
                   (uvm_sequencer.seq_q uvm_sequencer.init ++ [2]))
      /\ (forall s',
            s' <> 0 ->
            sequencers w' !! s' = sequencers Sample.one_sequencer !! s')
      /\ items w' !! 2
         = (fun it =>
              uvm_sequence_item.mk (uvm_sequence_item.transaction_id it)
                (Some (uvm_sequence.sequence_id
                         (uvm_sequence.mk (Some 0) None 5)))
                (uvm_sequence_item.response_id it))
             <$> items Sample.one_sequencer !! 2
      /\ (forall l, l <> 2 -> items w' !! l = items Sample.one_sequencer !! l).
Proof.
  assert (sequencers Sample.one_sequencer !! 0 = Some uvm_sequencer.init)
    as H by (vm_compute; reflexivity).
  split; [reflexivity|]. split; [exact H|].
  exact (sequence_start_item_effects (uvm_sequence.mk (Some 0) None 5) 0 2
           Sample.one_sequencer uvm_sequencer.init eq_refl H).
Defined.

(** X11: the stamp of [start_item] is what [set_context] copies: once a
    bound sequence has started a request, a response linked to the request
    with [set_context] carries the pair of the sequence's id and the
    request's transaction id. *)
Theorem response_link_names_the_sequence
    (self : uvm_sequence.t) (s : nat) (req rsp : loc) (w : world)
    (qi ri : uvm_sequence_item.t) :
  uvm_sequence.sequencer self = Some s ->
  items w !! req = Some qi ->
  items w !! rsp = Some ri ->
  exists h' ri',
    uvm_sequence_item.set_context rsp req
      (items (outcome_state (uvm_sequence.start_item self req w)).2)
    = Some h'
    /\ h' !! rsp = Some ri'
    /\ uvm_sequence_item.response_id ri'
       = Some (Some (uvm_sequence.sequence_id self),
               uvm_sequence_item.transaction_id qi).
Proof.
  intros Hs Hq Hr.
  assert (items (outcome_state (uvm_sequence.start_item self req w)).2
          = alter (fun it =>
                     uvm_sequence_item.with_parent_sequence_id it
                       (Some (uvm_sequence.sequence_id self))) req (items w))
    as ->.
  { unfold uvm_sequence.start_item, uvm_sequence.on_sequencer.
    rewrite Hs. simpl. by destruct (sequencers w !! s). }
  unfold uvm_sequence_item.set_context.
  rewrite lookup_alter_eq, Hq. simpl.
  destruct (decide (rsp = req)) as [->|Hne].
  - rewrite lookup_alter_eq, Hq. simpl. eexists _, _.
    split; [reflexivity|]. by rewrite lookup_insert_eq.
  - rewrite lookup_alter_ne, Hr by done. simpl. eexists _, _.
    split; [reflexivity|]. by rewrite lookup_insert_eq.
Qed.

Lemma response_link_names_the_sequence_witness :
  uvm_sequence.sequencer (uvm_sequence.mk (Some 0) None 5) = Some 0
  /\ items Sample.one_sequencer !! 2 = Some (uvm_sequence_item.init 20)
  /\ items Sample.one_sequencer !! 1 = Some (uvm_sequence_item.init 10)
  /\ exists h' ri',
      uvm_sequence_item.set_context 1 2
        (items (outcome_state
                  (uvm_sequence.start_item (uvm_sequence.mk (Some 0) None 5)
                     2 Sample.one_sequencer)).2)
      = Some h'
      /\ h' !! 1 = Some ri'
      /\ uvm_sequence_item.response_id ri'
         = Some (Some (uvm_sequence.sequence_id
                         (uvm_sequence.mk (Some 0) None 5)),
                 uvm_sequence_item.transaction_id
                   (uvm_sequence_item.init 20)).
Proof.
  assert (items Sample.one_sequencer !! 2 = Some (uvm_sequence_item.init 20))
    as H2 by (vm_compute; reflexivity).
  assert (items Sample.one_sequencer !! 1 = Some (uvm_sequence_item.init 10))
    as H1 by (vm_compute; reflexivity).
  split; [reflexivity|]. split; [exact H2|]. split; [exact H1|].
  exact (response_link_names_the_sequence (uvm_sequence.mk (Some 0) None 5)
           0 2 1 Sample.one_sequencer _ _ eq_refl H2 H1).
Defined.

(** X12: a sequence started without a sequencer cannot send.  [start(None)]
    runs the body unbound, and a body that calls [start_item] makes [start]
    end with [UVMSequenceError]: the item is neither stamped nor queued, and
    the world is as before.  The same holds for [finish_item] and
    [get_response] in the body. *)
Theorem virtual_sequence_cannot_send
    (pre_body post_body :
       uvm_sequence.t * world -> outcome (uvm_sequence.t * world) unit)
    (self : uvm_sequence.t) (item : loc) (tid : option Z) (w : world) :
  let unbound :=
    uvm_sequence.mk None (uvm_sequence.running_item self)
      (uvm_sequence.sequence_id self) in
  uvm_sequence.start pre_body
    (fun st => uvm_sequence.start_item st.1 item st.2) post_body
    self PyNone false w
  = Raised UVMSequenceError (unbound, w) []
  /\ uvm_sequence.start pre_body
       (fun st => uvm_sequence.finish_item st.1 item st.2) post_body
       self PyNone false w
     = Raised UVMSequenceError (unbound, w) []
  /\ uvm_sequence.start pre_body
       (fun st =>
          bind (map_state (fun w' => (st.1, w'))
                  (uvm_sequence.get_response st.1 tid st.2))
            (fun _ st' => Done tt st' []))
       post_body self PyNone false w
     = Raised UVMSequenceError (unbound, w) [].
Proof. done. Qed.

(** ** The handshake between producers and driver *)

Section handshake.
Import Exchange.

Lemma lookup_wake_woken ps (m : gmap nat pulse) i ev :
  m !! i = Some ev -> wake_producers ps m !! i = None -> ev ∈ ps.
Proof.
  intros Hm Hw. destruct (decide (ev ∈ ps)) as [|Hn]; [done|].
  by rewrite (lookup_wake_notin ps m i ev Hm Hn) in Hw.
Qed.

Lemma paired_step d st a :
  paired d st -> paired (d + (if is_item_done a then 1 else 0)) (step st a).
Proof.
  destruct st as [[[req rsp cur] sq] prods fwd cons sts fts].
  unfold paired, slot. simpl.
  destruct a as [p item|p item| | |r]; simpl.
  - destruct (prods !! p); simpl; by rewrite ?wake_consumer_nil, ?Nat.add_0_r.
  - destruct (prods !! p); simpl; rewrite ?Nat.add_0_r; [done|].
    destruct cons as [| |ev|]; simpl; try done.
    by destruct (decide _).
  - rewrite Nat.add_0_r.
    destruct fwd as [|x]; [destruct sq as [|x sq]|]; simpl;
      by rewrite wake_consumer_nil.
  - rewrite Nat.add_0_r. destruct cons as [| |ev|]; simpl; try done.
    + destruct cur as [c|]; simpl; [done|].
      destruct req as [|x req]; simpl; intros H; split; (done || lia).
    + intros [-> H]. destruct req as [|x req]; simpl; by split.
    + intros [[c ->] H]. simpl. rewrite length_app. simpl. lia.
  - destruct cons as [| |ev|]; simpl;
      try (intros [? ?]; split; (done || lia)).
    destruct cur as [c|]; simpl; [|lia].
    destruct r as [r|]; simpl; lia.
Qed.

Lemma paired_run acts d st :
  paired d st -> paired (d + item_done_calls acts) (run st acts).
Proof.
  revert d st. induction acts as [|a acts IH]; intros d st H.
  - unfold item_done_calls. simpl. by rewrite Nat.add_0_r.
  - simpl. apply (paired_step d st a) in H. apply IH in H.
    replace (d + item_done_calls (a :: acts))
      with (d + (if is_item_done a then 1 else 0) + item_done_calls acts);
      [done|].
    unfold item_done_calls. simpl. destruct (is_item_done a); simpl; lia.
Qed.
End handshake.

(** X13: the driver holds at most one item at a time.  In every schedule the
    number of items [get_next_item] has returned exceeds the number of
    [item_done] calls by at most one (the item being processed); a further
    fetch needs a further [item_done]. *)
Theorem fetches_are_paired_with_item_done (acts : list Exchange.action) :
  length (Exchange.fetched (Exchange.run Exchange.init acts))
  <= S (Exchange.item_done_calls acts).
Proof.
  pose proof (paired_run acts 0 Exchange.init) as H.
  unfold Exchange.paired in H. simpl in H.
  destruct (Exchange.consumer (Exchange.run Exchange.init acts));
    [specialize (H (Nat.le_refl _))
    |destruct (H (Nat.le_refl _)) as [_ ?]
    |destruct (H (Nat.le_refl _)) as [_ ?]
    |destruct (H (Nat.le_refl _)) as [_ ?]]; try lia.
  destruct (Exchange.slot _); simpl in H; lia.
Qed.

(** X14: a producer leaves [start_item] and [finish_item] only on the
    driver's move for its item.  One suspended in [finish_item(l)] resumes
    only through an [item_done] made while the driver holds [l], which
    empties the slot; one suspended in [start_item(l)] resumes only when the
    driver's [get_next_item] pops [l] from the head of the request queue into
    the slot. *)
Theorem producer_resumes_on_driver_move
    (st : Exchange.t) (a : Exchange.action) (p : nat) (l : loc) :
  Exchange.producers (Exchange.step st a) !! p = None ->
  (Exchange.producers st !! p = Some (ItemPulse l finish_condition) ->
   exists rsp,
     a = Exchange.ItemDone rsp
     /\ Exchange.consumer st = Exchange.CRun
     /\ Exchange.slot st = Some l
     /\ Exchange.slot (Exchange.step st a) = None)
  /\ (Exchange.producers st !! p = Some (ItemPulse l start_condition) ->
      a = Exchange.GetNextItem
      /\ head (uvm_seq_item_export.req_q
                 (uvm_sequencer.seq_item_export (Exchange.seqr st))) = Some l
      /\ Exchange.slot (Exchange.step st a) = Some l).
Proof.
  destruct st as [[[req rsp cur] sq] prods fwd cons sts fts].
  unfold Exchange.slot. simpl.
  assert (forall ev, prods !! p = Some ev ->
                     Exchange.wake_producers [] prods !! p <> None) as Hnil.
  { intros ev Hev. by rewrite wake_producers_nil, Hev. }
  assert (forall ev ps, prods !! p = Some ev -> ev ∉ ps ->
            Exchange.wake_producers ps prods !! p <> None) as Hkeep.
  { intros ev ps Hev Hn. by rewrite (lookup_wake_notin ps prods p ev Hev Hn). }
  destruct a as [p' item|p' item| | |r]; simpl.
  - (* start_item *)
    destruct (prods !! p') eqn:Hp'; simpl; intros Hw;
      (split; intros Hp; [|]); try congruence;
      destruct (decide (p' = p)) as [->|Hne]; try congruence;
      rewrite ?lookup_insert_ne in Hw by done;
      by destruct (Hnil _ Hp).
  - (* finish_item *)
    destruct (prods !! p') eqn:Hp'; simpl; intros Hw;
      (split; intros Hp; [|]); try congruence;
      destruct (decide (p' = p)) as [->|Hne]; try congruence;
      rewrite ?lookup_insert_ne in Hw by done;
      destruct (Hkeep _ [ItemPulse item item_ready] Hp); try done;
      rewrite list_elem_of_singleton; discriminate.
  - (* run_phase *)
    destruct fwd as [|x]; [destruct sq as [|x sq]|]; simpl; intros Hw;
      split; intros Hp; by destruct (Hnil _ Hp).
  - (* get_next_item *)
    destruct cons as [| |ev|]; simpl.
    + destruct cur as [c|]; simpl;
        [intros Hw; split; intros Hp; by destruct (Hnil _ Hp)|].
      destruct req as [|x req]; simpl;
        [intros Hw; split; intros Hp; by destruct (Hnil _ Hp)|].
      intros Hw; split; intros Hp.
      * destruct (Hkeep _ [ItemPulse x start_condition] Hp); try done.
        rewrite list_elem_of_singleton; discriminate.
      * apply (lookup_wake_woken _ _ _ _ Hp) in Hw.
        apply list_elem_of_singleton in Hw. by injection Hw as ->.
    + destruct req as [|x req]; simpl;
        [intros Hw; split; intros Hp; by destruct (Hnil _ Hp)|].
      intros Hw; split; intros Hp.
      * destruct (Hkeep _ [ItemPulse x start_condition] Hp); try done.
        rewrite list_elem_of_singleton; discriminate.
      * apply (lookup_wake_woken _ _ _ _ Hp) in Hw.
        apply list_elem_of_singleton in Hw. by injection Hw as ->.
    + intros Hw; split; intros Hp; congruence.
    + intros Hw; split; intros Hp; by destruct (Hnil _ Hp).
  - (* item_done *)
    destruct cons as [| |ev|]; simpl;
      try (intros Hw; split; intros Hp; congruence).
    destruct cur as [c|]; simpl;
      [|intros Hw; split; intros Hp; by destruct (Hnil _ Hp)].
    destruct r as [r|]; simpl; intros Hw; split; intros Hp.
    + apply (lookup_wake_woken _ _ _ _ Hp) in Hw.
      apply elem_of_cons in Hw as [Hw|Hw];
        [|apply list_elem_of_singleton in Hw; discriminate].
      injection Hw as ->. by exists (Some r).
    + apply (lookup_wake_woken _ _ _ _ Hp) in Hw.
      apply elem_of_cons in Hw as [Hw|Hw]; [discriminate|].
      apply list_elem_of_singleton in Hw; discriminate.
    + apply (lookup_wake_woken _ _ _ _ Hp) in Hw.
      apply list_elem_of_singleton in Hw. injection Hw as ->. by exists None.
    + apply (lookup_wake_woken _ _ _ _ Hp) in Hw.
      apply list_elem_of_singleton in Hw. discriminate.
Qed.

Lemma producer_resumes_on_driver_move_witness :
  Exchange.producers
    (Exchange.step
       (Exchange.mk
          (uvm_sequencer.mk (uvm_seq_item_export.mk [] [] (Some 1)) [])
          {[ 0 := ItemPulse 1 finish_condition ]}
          Exchange.FGet Exchange.CRun [1] [Some 1])
       (Exchange.ItemDone None)) !! 0 = None
  /\ Exchange.producers
       (Exchange.mk
          (uvm_sequencer.mk (uvm_seq_item_export.mk [] [] (Some 1)) [])
          {[ 0 := ItemPulse 1 finish_condition ]}
          Exchange.FGet Exchange.CRun [1] [Some 1]) !! 0
     = Some (ItemPulse 1 finish_condition)
  /\ exists rsp,
      Exchange.ItemDone None = Exchange.ItemDone rsp
      /\ Exchange.consumer
           (Exchange.mk
              (uvm_sequencer.mk (uvm_seq_item_export.mk [] [] (Some 1)) [])
              {[ 0 := ItemPulse 1 finish_condition ]}
              Exchange.FGet Exchange.CRun [1] [Some 1])
         = Exchange.CRun
      /\ Exchange.slot
           (Exchange.mk
              (uvm_sequencer.mk (uvm_seq_item_export.mk [] [] (Some 1)) [])
              {[ 0 := ItemPulse 1 finish_condition ]}
              Exchange.FGet Exchange.CRun [1] [Some 1])
         = Some 1
      /\ Exchange.slot
           (Exchange.step
              (Exchange.mk
                 (uvm_sequencer.mk (uvm_seq_item_export.mk [] [] (Some 1)) [])
                 {[ 0 := ItemPulse 1 finish_condition ]}
                 Exchange.FGet Exchange.CRun [1] [Some 1])
              (Exchange.ItemDone None))
         = None.
Proof.
  assert (Exchange.producers
            (Exchange.step
               (Exchange.mk
                  (uvm_sequencer.mk (uvm_seq_item_export.mk [] [] (Some 1)) [])
                  {[ 0 := ItemPulse 1 finish_condition ]}
                  Exchange.FGet Exchange.CRun [1] [Some 1])
               (Exchange.ItemDone None)) !! 0 = None) as H1
    by (vm_compute; reflexivity).
  assert (Exchange.producers
            (Exchange.mk
               (uvm_sequencer.mk (uvm_seq_item_export.mk [] [] (Some 1)) [])
               {[ 0 := ItemPulse 1 finish_condition ]}
               Exchange.FGet Exchange.CRun [1] [Some 1]) !! 0
          = Some (ItemPulse 1 finish_condition)) as H2
    by (vm_compute; reflexivity).
  split; [exact H1|]. split; [exact H2|].
  exact (proj1 (producer_resumes_on_driver_move _ _ 0 1 H1) H2).
Defined.

(** X15: [get_next_item] hands an item to the driver only after the item has
    been released.  The list of fetched items grows only when the driver,
    already woken, runs the [return] of line 221, and it then receives what
    is in the slot; and the driver is woken from the wait of line 220 only by
    a producer's [finish_item] that pulses the [item_ready] it waits for. *)
Theorem fetch_returns_only_after_release
    (st : Exchange.t) (a : Exchange.action) :
  (Exchange.fetched (Exchange.step st a) <> Exchange.fetched st ->
   a = Exchange.GetNextItem
   /\ Exchange.consumer st = Exchange.CReturn
   /\ Exchange.fetched (Exchange.step st a)
      = Exchange.fetched st ++ [Exchange.slot st])
  /\ (Exchange.consumer st <> Exchange.CReturn ->
      Exchange.consumer (Exchange.step st a) = Exchange.CReturn ->
      exists p l,
        a = Exchange.FinishItem p l
        /\ Exchange.producers st !! p = None
        /\ Exchange.consumer st = Exchange.CWaitReady (ItemPulse l item_ready)).
Proof.
  destruct st as [[[req rsp cur] sq] prods fwd cons sts fts].
  unfold Exchange.slot. simpl.
  destruct a as [p item|p item| | |r]; simpl.
  - destruct (prods !! p); simpl; rewrite ?wake_consumer_nil; split; done.
  - destruct (prods !! p) eqn:Hp; simpl; [split; done|].
    split; [done|]. intros Hc.
    destruct cons as [| |ev|]; simpl; try done.
    destruct (decide (ev ∈ [ItemPulse item item_ready])) as [Hin|]; [|done].
    apply list_elem_of_singleton in Hin as ->. intros _. by exists p, item.
  - destruct fwd as [|x]; [destruct sq as [|x sq]|]; simpl;
      rewrite ?wake_consumer_nil; split; done.
  - destruct cons as [| |ev|]; simpl; try (split; done).
    + destruct cur as [c|]; simpl; [split; done|].
      destruct req as [|x req]; simpl; split; done.
    + destruct req as [|x req]; simpl; split; done.
  - destruct cons as [| |ev|]; simpl; try (split; done).
    destruct cur as [c|]; simpl; [|split; done].
    destruct r as [r|]; simpl; split; done.
Qed.

Lemma fetch_returns_only_after_release_witness :
  (Exchange.fetched
     (Exchange.step
        (Exchange.mk
           (uvm_sequencer.mk (uvm_seq_item_export.mk [] [] (Some 1)) [])
           ∅ Exchange.FGet Exchange.CReturn [1] [])
        Exchange.GetNextItem)
   <> Exchange.fetched
        (Exchange.mk
           (uvm_sequencer.mk (uvm_seq_item_export.mk [] [] (Some 1)) [])
           ∅ Exchange.FGet Exchange.CReturn [1] []))
  /\ Exchange.fetched
       (Exchange.step
          (Exchange.mk
             (uvm_sequencer.mk (uvm_seq_item_export.mk [] [] (Some 1)) [])
             ∅ Exchange.FGet Exchange.CReturn [1] [])
          Exchange.GetNextItem)
     = [] ++ [Some 1].
Proof.
  assert (Exchange.fetched
            (Exchange.step
               (Exchange.mk
                  (uvm_sequencer.mk (uvm_seq_item_export.mk [] [] (Some 1)) [])
                  ∅ Exchange.FGet Exchange.CReturn [1] [])
               Exchange.GetNextItem)
          <> Exchange.fetched
               (Exchange.mk
                  (uvm_sequencer.mk (uvm_seq_item_export.mk [] [] (Some 1)) [])
                  ∅ Exchange.FGet Exchange.CReturn [1] [])) as H
    by (vm_compute; discriminate).
  split; [exact H|].
  exact (proj2 (proj2 (proj1 (fetch_returns_only_after_release
                                (Exchange.mk
                                   (uvm_sequencer.mk
                                      (uvm_seq_item_export.mk [] [] (Some 1))
                                      [])
                                   ∅ Exchange.FGet Exchange.CReturn [1] [])
                                Exchange.GetNextItem) H))).
Defined.

(** ** The register item's other setters *)

(** X16: [set_extension] has the guard of [set_status] and behaves like it:
    for every argument, a [uvm_object] included, it calls [error_out] (with
    the message about [bd_kind]) and never assigns, so [get_extension]
    returns what it returned before. *)
Theorem set_extension_never_assigns
    {E : Type} (error_out : string -> string -> E)
    (isinstance_uvm_object : pyval -> bool)
    (self : pyuvm_reg_item.t) (ext : pyval) :
  pyuvm_reg_item.set_extension error_out isinstance_uvm_object self ext
  = (self, Some (error_out (pyuvm_reg_item.header self)
                   "bd kind is not string possible values RTL or GATE"))
  /\ pyuvm_reg_item.get_extension
       (pyuvm_reg_item.set_extension error_out isinstance_uvm_object
          self ext).1
     = pyuvm_reg_item.get_extension self.
Proof.
  unfold pyuvm_reg_item.set_extension. by rewrite py_invert_bool_truthy.
Qed.

(** X17: [set_value] ignores its index and appends: the value list grows by
    one, the new value is the last element and every element already there
    keeps its place and value.  After [set_value_size(sz)] the list is [sz]
    zeros (none for [sz <= 0]), so a following [set_value(v, idx)] yields the
    zeros followed by [v], whatever [idx]. *)
Theorem set_value_appends
    (self : pyuvm_reg_item.t) (v idx : pyval) (sz : Z) :
  pyuvm_reg_item.get_value_array (pyuvm_reg_item.set_value self v idx)
  = pyuvm_reg_item.get_value_array self ++ [v]
  /\ take (length (pyuvm_reg_item.get_value_array self))
       (pyuvm_reg_item.get_value_array (pyuvm_reg_item.set_value self v idx))
     = pyuvm_reg_item.get_value_array self
  /\ length (pyuvm_reg_item.get_value_array
               (pyuvm_reg_item.set_value_size self sz))
     = Z.to_nat sz
  /\ pyuvm_reg_item.get_value_array
       (pyuvm_reg_item.set_value
          (pyuvm_reg_item.set_value_size self sz) v idx)
     = replicate (Z.to_nat sz) (PyInt 0) ++ [v].
Proof.
  repeat split.
  - simpl. by rewrite take_app_length.
  - simpl. apply length_replicate.
Qed.

(** ** More on the sequence and on the events *)



(** X19: the events are not latched.  A [finish_item(l)] made while the
    driver is not waiting for [l]'s [item_ready] leaves the sequencer, the
    driver and what it has fetched exactly as they were: the release is
    forgotten, and the producer that made it nevertheless goes to wait for
    [finish_condition]. *)
Theorem release_without_waiter_is_lost
    (st : Exchange.t) (p : nat) (l : loc) :
  Exchange.consumer st <> Exchange.CWaitReady (ItemPulse l item_ready) ->
  Exchange.producers st !! p = None ->
  Exchange.seqr (Exchange.step st (Exchange.FinishItem p l))
  = Exchange.seqr st
  /\ Exchange.consumer (Exchange.step st (Exchange.FinishItem p l))
     = Exchange.consumer st
  /\ Exchange.fetched (Exchange.step st (Exchange.FinishItem p l))
     = Exchange.fetched st
  /\ Exchange.producers (Exchange.step st (Exchange.FinishItem p l)) !! p
     = Some (ItemPulse l finish_condition).
Proof.
  intros Hc Hp. simpl. rewrite Hp. simpl. repeat split.
  - destruct (Exchange.consumer st) as [| |ev|]; simpl; try done.
    destruct (decide (ev ∈ [ItemPulse l item_ready])) as [Hin|]; [|done].
    apply list_elem_of_singleton in Hin as ->. done.
  - by rewrite lookup_insert_eq.
Qed.

Lemma release_without_waiter_is_lost_witness :
  Exchange.consumer Exchange.init
  <> Exchange.CWaitReady (ItemPulse 1 item_ready)
  /\ Exchange.producers Exchange.init !! 0 = None
  /\ Exchange.seqr (Exchange.step Exchange.init (Exchange.FinishItem 0 1))
     = Exchange.seqr Exchange.init
  /\ Exchange.consumer (Exchange.step Exchange.init (Exchange.FinishItem 0 1))
     = Exchange.consumer Exchange.init
  /\ Exchange.fetched (Exchange.step Exchange.init (Exchange.FinishItem 0 1))
     = Exchange.fetched Exchange.init
  /\ Exchange.producers
       (Exchange.step Exchange.init (Exchange.FinishItem 0 1)) !! 0
     = Some (ItemPulse 1 finish_condition).
Proof.
  assert (Exchange.consumer Exchange.init
          <> Exchange.CWaitReady (ItemPulse 1 item_ready)) as H
    by discriminate.
  split; [exact H|]. split; [reflexivity|].
  exact (release_without_waiter_is_lost Exchange.init 0 1 H eq_refl).
Defined.
